(** * gensystemd: a shallow embedding of the systemd service generator

    The development follows [gensystemd.py]: the unit-file template and its
    brace-based expansion, the path resolver built on [pathlib], the
    privilege gate, the file writer, the [systemctl] runner and the three
    flows composed by [main].  Effects (log lines, file system operations,
    child processes, standard output) are threaded through a small
    state-and-exception monad; the operating system is an environment of
    oracles, so that every outcome the script can meet is an input of the
    model. *)

From Stdlib Require Import ZArith List String Ascii Bool Lia.
From stdpp Require Import base option gmap strings list pretty.

Local Open Scope string_scope.
Local Open Scope list_scope.
Local Open Scope Z_scope.

(** ** Characters and strings (Python [str]) *)

Module PyStr.

Definition nl : ascii := "010"%char.
Definition dquote : ascii := "034"%char.
Definition squote : ascii := "039"%char.
Definition slash : ascii := "/"%char.
Definition lbrace : ascii := "{"%char.
Definition rbrace : ascii := "}"%char.

Definition chr (c : ascii) : string := String c EmptyString.

(** [s.startswith(p)] and [s.endswith(p)]. *)
Fixpoint startswith (s p : string) : bool :=
  match p, s with
  | EmptyString, _ => true
  | String a p', String b s' => Ascii.eqb a b && startswith s' p'
  | String _ _, EmptyString => false
  end.

Definition endswith (s suffix : string) : bool :=
  let n := String.length s in
  let k := String.length suffix in
  (k <=? n)%nat && String.eqb (substring (n - k) k s) suffix.

(** [c in s] for a one-character [c]. *)
Fixpoint contains (c : ascii) (s : string) : bool :=
  match s with
  | EmptyString => false
  | String d r => Ascii.eqb d c || contains c r
  end.

(** [s.split(sep)] for a one-character separator: never the empty list. *)
Fixpoint split (sep : ascii) (s : string) : list string :=
  match s with
  | EmptyString => [EmptyString]
  | String c r =>
      if Ascii.eqb c sep then EmptyString :: split sep r
      else match split sep r with
           | h :: t => String c h :: t
           | [] => [chr c]
           end
  end.

(** [sep.join(parts)]. *)
Fixpoint join (sep : string) (parts : list string) : string :=
  match parts with
  | [] => EmptyString
  | [p] => p
  | p :: rest => p +:+ sep +:+ join sep rest
  end.

(** The lines of a text are its pieces between line feeds. *)
Definition lines (s : string) : list string := split nl s.

(** White space as [str.strip] knows it.  A text is held in its UTF-8
    encoding, so a white space character is one, two or three bytes long:
    the controls U+0009 to U+000D and U+001C to U+001F and the space; U+0085
    and U+00A0; U+1680, U+2000 to U+200A, U+2028, U+2029, U+202F, U+205F and
    U+3000. *)
Definition is_space1 (a : ascii) : bool :=
  let n := nat_of_ascii a in
  ((9 <=? n)%nat && (n <=? 13)%nat) || ((28 <=? n)%nat && (n <=? 32)%nat).

Definition is_space2 (a b : ascii) : bool :=
  let x := nat_of_ascii a in
  let y := nat_of_ascii b in
  (x =? 194)%nat && ((y =? 133)%nat || (y =? 160)%nat).

Definition is_space3 (a b c : ascii) : bool :=
  let x := nat_of_ascii a in
  let y := nat_of_ascii b in
  let z := nat_of_ascii c in
  ((x =? 225)%nat && (y =? 154)%nat && (z =? 128)%nat)
  || ((x =? 226)%nat && (y =? 128)%nat
      && (((128 <=? z)%nat && (z <=? 138)%nat)
          || (z =? 168)%nat || (z =? 169)%nat || (z =? 175)%nat))
  || ((x =? 226)%nat && (y =? 129)%nat && (z =? 159)%nat)
  || ((x =? 227)%nat && (y =? 128)%nat && (z =? 128)%nat).

(** [s.lstrip()]: the white space characters at the start are dropped. *)
Fixpoint lstrip (s : string) : string :=
  match s with
  | String a r =>
      if is_space1 a then lstrip r
      else match r with
           | String b r' =>
               if is_space2 a b then lstrip r'
               else match r' with
                    | String c r'' =>
                        if is_space3 a b c then lstrip r'' else s
                    | EmptyString => s
                    end
           | EmptyString => s
           end
  | EmptyString => EmptyString
  end.

(** The same on a text read backwards: the bytes of a character come last
    byte first. *)
Fixpoint lstrip_reversed (s : string) : string :=
  match s with
  | String a r =>
      if is_space1 a then lstrip_reversed r
      else match r with
           | String b r' =>
               if is_space2 b a then lstrip_reversed r'
               else match r' with
                    | String c r'' =>
                        if is_space3 c b a then lstrip_reversed r'' else s
                    | EmptyString => s
                    end
           | EmptyString => s
           end
  | EmptyString => EmptyString
  end.

(** [s.rstrip()] and [s.strip()]. *)
Definition rstrip (s : string) : string :=
  String.rev (lstrip_reversed (String.rev s)).

Definition strip (s : string) : string := rstrip (lstrip s).

(** Truthiness of a string: [if s:] holds for non-empty strings. *)
Definition truthy (s : string) : bool :=
  match s with EmptyString => false | _ => true end.

End PyStr.

(** ** Exceptions and results *)

Inductive exn : Type :=
| ValueError (msg : string)
| KeyError (key : string)
| IndexError (msg : string)
| PermissionError (msg : string)
| OtherException (msg : string)
| CalledProcessError (returncode : Z) (stdout stderr : string)
| KeyboardInterrupt.

(** [isinstance(e, Exception)]: everything but the interrupt, which derives
    from [BaseException] only. *)
Definition is_Exception (e : exn) : bool :=
  match e with KeyboardInterrupt => false | _ => true end.

Definition is_PermissionError (e : exn) : bool :=
  match e with PermissionError _ => true | _ => false end.

(** [str(e)], as the f-strings of the handlers print it (a key is shown
    between quotes; the message of [CalledProcessError], which the script
    never prints, leaves the command out). *)
Definition exn_str (e : exn) : string :=
  match e with
  | ValueError m | IndexError m | PermissionError m | OtherException m => m
  | KeyError k => PyStr.chr PyStr.squote +:+ k +:+ PyStr.chr PyStr.squote
  | CalledProcessError rc _ _ =>
      "Command returned non-zero exit status " +:+ pretty rc +:+ "."
  | KeyboardInterrupt => ""
  end.

Inductive result (A : Type) : Type :=
| Ok (a : A)
| Raise (e : exn).
Arguments Ok {A} a.
Arguments Raise {A} e.

(** ** Brace-based expansion: [str.format]

    [MarkupIterator] walks the format string as CPython's iterator of the
    same name does: literal text up to a brace, a doubled brace as one
    literal brace, a lone closing brace as an error, otherwise a replacement
    field up to its closing brace.  Only the format string is parsed; the
    values substituted are never looked into.  Fields with a conversion, a
    format specification, attribute or index access, or with a name outside
    ASCII (where a digit of another script would count as a digit), are not
    used by the script and are reported by [MUnmodelled]. *)

Module Format.
Import PyStr.

Inductive markup : Type :=
| MEnd
| MLit (text : string) (rest : markup)
| MField (name : string) (rest : markup)
| MError (e : exn)
| MUnmodelled.

Definition mlit (c : ascii) (m : markup) : markup :=
  match m with
  | MLit s r => MLit (String c s) r
  | _ => MLit (chr c) m
  end.

Inductive pstate : Type :=
| Text
| Field (name : string).

Definition is_field_special (c : ascii) : bool :=
  Ascii.eqb c "!" || Ascii.eqb c ":" || Ascii.eqb c "." || Ascii.eqb c "[".

Fixpoint MarkupIterator (st : pstate) (s : string) : markup :=
  match st, s with
  | Text, EmptyString => MEnd
  | Text, String c r =>
      if Ascii.eqb c lbrace then
        match r with
        | EmptyString =>
            MError (ValueError "Single '{' encountered in format string")
        | String d r' =>
            if Ascii.eqb d lbrace then mlit lbrace (MarkupIterator Text r')
            else MarkupIterator (Field EmptyString) r
        end
      else if Ascii.eqb c rbrace then
        match r with
        | String d r' =>
            if Ascii.eqb d rbrace then mlit rbrace (MarkupIterator Text r')
            else MError (ValueError "Single '}' encountered in format string")
        | EmptyString =>
            MError (ValueError "Single '}' encountered in format string")
        end
      else mlit c (MarkupIterator Text r)
  | Field name, EmptyString =>
      MError (ValueError "expected '}' before end of string")
  | Field name, String c r =>
      if Ascii.eqb c rbrace then MField name (MarkupIterator Text r)
      else if Ascii.eqb c lbrace then
        MError (ValueError "unexpected '{' in field name")
      else if is_field_special c || (128 <=? nat_of_ascii c)%nat
      then MUnmodelled
      else MarkupIterator (Field (name +:+ chr c)) r
  end.

Definition is_digit (c : ascii) : bool :=
  let n := nat_of_ascii c in (48 <=? n)%nat && (n <=? 57)%nat.

Fixpoint all_digits (s : string) : bool :=
  match s with
  | EmptyString => true
  | String c r => is_digit c && all_digits r
  end.

(** The number a field name of digits stands for; the empty name is the
    first automatic index, 0. *)
Fixpoint digits_value (acc : Z) (s : string) : Z :=
  match s with
  | EmptyString => acc
  | String c r => digits_value (10 * acc + (Z.of_nat (nat_of_ascii c) - 48)) r
  end.

(** [get_value]: with no positional arguments an empty or numeric field
    name is out of range, or too long to be an index (on a 64-bit
    platform); any other name is a keyword. *)
Definition get_value (name : string) (kwargs : gmap string string)
  : result string :=
  if all_digits name then
    let index := digits_value 0 name in
    if 9223372036854775807 <? index then
      Raise (ValueError "Too many decimal digits in format string")
    else
      Raise (IndexError
        ("Replacement index " +:+ pretty index
         +:+ " out of range for positional args tuple"))
  else match kwargs !! name with
       | Some v => Ok v
       | None => Raise (KeyError name)
       end.

Fixpoint vformat (m : markup) (kwargs : gmap string string) : result string :=
  match m with
  | MEnd => Ok EmptyString
  | MLit text rest =>
      match vformat rest kwargs with
      | Ok out => Ok (text +:+ out)
      | Raise e => Raise e
      end
  | MField name rest =>
      match get_value name kwargs with
      | Ok v =>
          match vformat rest kwargs with
          | Ok out => Ok (v +:+ out)
          | Raise e => Raise e
          end
      | Raise e => Raise e
      end
  | MError e => Raise e
  | MUnmodelled => Raise (OtherException "format field outside the model")
  end.

(** [fmt.format] called with keyword arguments only. *)
Definition format (fmt : string) (kwargs : gmap string string)
  : result string :=
  vformat (MarkupIterator Text fmt) kwargs.

(** The replacement fields of a format string, in order. *)
Fixpoint fields (m : markup) : list string :=
  match m with
  | MLit _ rest => fields rest
  | MField name rest => name :: fields rest
  | _ => []
  end.

Definition substitution_points (fmt : string) : list string :=
  fields (MarkupIterator Text fmt).

End Format.

(** ** The unit-file template *)

Definition SERVICE_TEMPLATE : string :=
  PyStr.join (PyStr.chr PyStr.nl)
    [ "[Unit]";
      "Description={description}";
      "After=network.target network-online.target";
      "Wants=network-online.target";
      "";
      "[Service]";
      "Type=simple";
      "ExecStart=/bin/bash -c " +:+ PyStr.chr PyStr.dquote +:+ "{command}"
        +:+ PyStr.chr PyStr.dquote;
      "Restart=always";
      "RestartSec=10";
      "User=root";
      "";
      "[Install]";
      "WantedBy=multi-user.target";
      "" ].

(** ** Paths: [pathlib.PurePosixPath] and [posixpath] *)

Module Pathlib.
Import PyStr.

(** A parsed path: its root ([""], ["/"] or ["//"]) and its components. *)
Record PurePosixPath : Type := mkPath { root : string; tail : list string }.

(** [posixpath.splitroot], drive dropped: the root and what follows it. *)
Definition splitroot (p : string) : string * string :=
  match p with
  | String "/" (String "/" (String "/" r)) =>
      ("/", String "/" (String "/" r))
  | String "/" (String "/" r) => ("//", r)
  | String "/" r => ("/", r)
  | _ => ("", p)
  end.

Definition keep_part (x : string) : bool :=
  negb (String.eqb x "") && negb (String.eqb x ".").

(** [_parse_path]: empty and [.] components are dropped, [..] is kept. *)
Definition parse_path (path : string) : PurePosixPath :=
  let '(rt, rel) := splitroot path in
  mkPath rt (List.filter keep_part (split slash rel)).

(** [str(path)] *)
Definition str (p : PurePosixPath) : string :=
  match root p, tail p with
  | EmptyString, [] => "."
  | rt, tl => rt +:+ join "/" tl
  end.

(** [posixpath.join(a, b)]: an absolute [b] discards [a]. *)
Definition posix_join (a b : string) : string :=
  if startswith b "/" then b
  else if negb (truthy a) || endswith a "/" then a +:+ b
  else a +:+ "/" +:+ b.

(** [path / key] *)
Definition truediv (p : PurePosixPath) (key : string) : PurePosixPath :=
  parse_path (posix_join (str p) key).

(** [path.parent] and [path.name] *)
Definition parent (p : PurePosixPath) : PurePosixPath :=
  match tail p with
  | [] => p
  | tl => mkPath (root p) (removelast tl)
  end.

Definition name (p : PurePosixPath) : string := List.last (tail p) "".

(** Where a rooted path leads once every [..] has cancelled the component
    before it (no symbolic links), as [os.path.normpath] computes it. *)
Fixpoint normparts (stack : list string) (parts : list string) : list string :=
  match parts with
  | [] => rev stack
  | p :: rest =>
      if String.eqb p ".." then normparts (List.tl stack) rest
      else normparts (p :: stack) rest
  end.

Fixpoint is_prefix (l1 l2 : list string) : bool :=
  match l1, l2 with
  | [], _ => true
  | x :: l1', y :: l2' => String.eqb x y && is_prefix l1' l2'
  | _ :: _, [] => false
  end.

(** [lies_inside base p]: [p] denotes an entry strictly below the
    directory [base]. *)
Definition lies_inside (base p : PurePosixPath) : bool :=
  String.eqb (root p) (root base)
  && is_prefix (normparts [] (tail base)) (normparts [] (tail p))
  && (List.length (normparts [] (tail base))
        <? List.length (normparts [] (tail p)))%nat.

End Pathlib.

(** ** The world: log, file system, processes *)

Inductive Level : Type := DEBUG | INFO | WARNING | ERROR | CRITICAL.

Definition levelno (l : Level) : Z :=
  match l with
  | DEBUG => 10 | INFO => 20 | WARNING => 30 | ERROR => 40 | CRITICAL => 50
  end.

Inductive fs_op : Type :=
| OpMkdir (path : string)
| OpOpen (path : string)
| OpWrite (path : string) (text : string)
| OpClose (path : string)
| OpChmod (path : string) (mode : Z).

Inductive event : Type :=
| ELog (lvl : Level) (msg : string)
| EFs (op : fs_op)
| ESpawn (argv : list string)
| EPrint (text : string).

Record file : Type := mkFile { content : string; mode : Z }.

(** The state of a run: the files, the level of the root logger, the
    trace of what was done, and the text that [print] has handed to
    standard output and that is still in its buffer.  A file is known by
    the path string handed to the system call: two strings that the
    operating system resolves to one file (through [..] or a link) are two
    names here.  The log goes to standard error, which is taken to accept
    it. *)
Record World : Type := mkWorld {
  files : gmap string file;
  root_level : Level;
  trace : list event;
  stdout_buffer : string
}.

(** What a child process did: it ran to an exit status and its captured
    streams were decoded as text; it ran to an exit status but a captured
    stream is not text in the encoding of the locale, so that
    [subprocess.run(text=True)] raises [UnicodeDecodeError] (a
    [ValueError]) whatever the status; or [subprocess.run] raised before
    any status was obtained (the executable could not be launched, the
    wait was interrupted). *)
Inductive proc_outcome : Type :=
| Exited (returncode : Z) (stdout stderr : string)
| Undecodable (returncode : Z) (msg : string)
| NotRun (e : exn).

(** The operating system as the script meets it: the effective user, the
    file mode creation mask, the file system call that raises and how many
    characters had reached the file by then, the outcome of a child
    process, the [print] that raises, and the flush of standard output at
    interpreter exit that fails.  A user interrupt is an exception one of
    these calls raises: it is delivered while the script waits in a system
    call or for a child process. *)
Record Env : Type := mkEnv {
  geteuid : Z;
  umask : Z;
  fs_fault : fs_op -> option exn;
  reached : fs_op -> nat;
  spawn : list string -> proc_outcome;
  stdout_fault : string -> option exn;
  exit_flush_fault : string -> option exn
}.

(** What a run did besides logging: its file system calls, child processes
    and printed text, in order. *)
Definition is_log (e : event) : bool :=
  match e with ELog _ _ => true | _ => false end.
Definition is_fs (e : event) : bool :=
  match e with EFs _ => true | _ => false end.
Definition is_spawn (e : event) : bool :=
  match e with ESpawn _ => true | _ => false end.

Definition effects (t : list event) : list event :=
  List.filter (fun e => negb (is_log e)) t.
Definition fs_ops (t : list event) : list event := List.filter is_fs t.
Definition spawns (t : list event) : list event := List.filter is_spawn t.

(** The events that reach the trace when the root logger is at [root]:
    log records below that level are dropped. *)
Definition visible (root : Level) (es : list event) : list event :=
  List.filter
    (fun e => match e with
              | ELog l _ => levelno root <=? levelno l
              | _ => true
              end) es.

(** ** The monad of the script: state and exceptions *)

Definition M (A : Type) : Type := World -> result A * World.

#[global] Instance M_ret : MRet M := fun A a w => (Ok a, w).

#[global] Instance M_bind : MBind M := fun A B f m w =>
  match m w with
  | (Ok a, w') => f a w'
  | (Raise e, w') => (Raise e, w')
  end.

Definition raise {A} (e : exn) : M A := fun w => (Raise e, w).

Definition lift {A} (r : result A) : M A := fun w => (r, w).

(** [try: body  except ...: handler]: the handler picks the exceptions it
    catches; the others propagate. *)
Definition try_except {A} (body : M A) (handler : exn -> option (M A)) : M A :=
  fun w =>
    match body w with
    | (Ok a, w') => (Ok a, w')
    | (Raise e, w') =>
        match handler e with
        | Some h => h w'
        | None => (Raise e, w')
        end
    end.

(** World transformers: one more event, another root level, other files. *)
Definition record (e : event) (w : World) : World :=
  mkWorld (files w) (root_level w) (trace w ++ [e]) (stdout_buffer w).

Definition with_level (l : Level) (w : World) : World :=
  mkWorld (files w) l (trace w) (stdout_buffer w).

Definition with_files (f : gmap string file -> gmap string file)
    (w : World) : World :=
  mkWorld (f (files w)) (root_level w) (trace w) (stdout_buffer w).

(** Text kept in the buffer of standard output. *)
Definition buffered (text : string) (w : World) : World :=
  mkWorld (files w) (root_level w) (trace w) (stdout_buffer w +:+ text).

(** [logger.log(lvl, msg)]: the module logger has no level of its own, the
    root logger's level decides. *)
Definition isEnabledFor (lvl : Level) (w : World) : bool :=
  levelno (root_level w) <=? levelno lvl.

Definition logged (lvl : Level) (msg : string) (w : World) : World :=
  if isEnabledFor lvl w then record (ELog lvl msg) w else w.

Definition emit (e : event) : M unit := fun w => (Ok tt, record e w).

Definition setLevel (l : Level) : M unit := fun w => (Ok tt, with_level l w).

Definition update_files (f : gmap string file -> gmap string file) : M unit :=
  fun w => (Ok tt, with_files f w).

Definition buffer_stdout (text : string) : M unit :=
  fun w => (Ok tt, buffered text w).

Definition log (lvl : Level) (msg : string) : M unit :=
  fun w => (Ok tt, logged lvl msg w).

Definition when (b : bool) (m : M unit) : M unit :=
  if b then m else mret tt.

(** ** The script *)

Section Script.
Import PyStr.

Variable env : Env.

(** *** Operating-system calls *)

(** A file system call is recorded when attempted; the environment decides
    whether it raises.  [effect] is what a call that returns does to the
    files, [partial] what a call that raises has done to them by then. *)
Definition fs_call (op : fs_op)
    (effect partial : gmap string file -> gmap string file) : M unit :=
  emit (EFs op) ;;
  match fs_fault env op with
  | Some e => update_files partial ;; raise e
  | None => update_files effect
  end.

(** [path.mkdir(parents=True, exist_ok=True)]: directories hold no data
    of the script; the call is recorded. *)
Definition mkdir_p (p : Pathlib.PurePosixPath) : M unit :=
  fs_call (OpMkdir (Pathlib.str p)) id id.

(** [open(path, 'w')] creates the file, or truncates it and keeps its
    mode. *)
Definition open_w (path : string) : M unit :=
  fs_call (OpOpen path) (fun fs =>
    match fs !! path with
    | Some f => <[path := mkFile "" (mode f)]> fs
    | None => <[path := mkFile "" (Z.land 438 (Z.lnot (umask env)))]> fs
    end) id.

(** [f.write(text)] and the [f.close()] that ends the [with] block.  The
    text goes through the buffer of the file object: it is in the file once
    both calls have returned.  When one of them raises, the file holds the
    start of the text that had reached it, as many characters as the
    environment says. *)
Definition write (path text : string) : M unit :=
  fs_call (OpWrite path text)
    (alter (fun f => mkFile (content f +:+ text) (mode f)) path)
    (alter (fun f =>
       mkFile (content f
               +:+ substring 0 (reached env (OpWrite path text)) text)
         (mode f)) path).

Definition close (path : string) : M unit :=
  fs_call (OpClose path) id
    (alter (fun f =>
       mkFile (substring 0 (reached env (OpClose path)) (content f))
         (mode f)) path).

(** [with open(path, 'w') as f: body]: the file is closed on every way out
    of the body. *)
Definition closing {A} (path : string) (body : M A) : M A :=
  fun w =>
    match body w with
    | (Ok a, w') =>
        match close path w' with
        | (Ok _, w'') => (Ok a, w'')
        | (Raise e, w'') => (Raise e, w'')
        end
    | (Raise e, w') =>
        match close path w' with
        | (Ok _, w'') => (Raise e, w'')
        | (Raise e', w'') => (Raise e', w'')
        end
    end.

Definition with_open_w {A} (path : string) (body : M A) : M A :=
  open_w path ;; closing path body.

(** [os.chmod(path, mode)] *)
Definition chmod (path : string) (m : Z) : M unit :=
  fs_call (OpChmod path m) (alter (fun f => mkFile (content f) m) path) id.

(** [subprocess.run(argv, capture_output=True, text=True, check=True)]:
    the captured streams of a child that exited with status zero.  The
    streams are decoded while they are collected, before the status is
    checked. *)
Definition subprocess_run (argv : list string) : M (string * string) :=
  emit (ESpawn argv) ;;
  match spawn env argv with
  | Exited rc out err =>
      if rc =? 0 then mret (out, err)
      else raise (CalledProcessError rc out err)
  | Undecodable _ msg => raise (ValueError msg)
  | NotRun e => raise e
  end.

(** [print(text)]: the text and a line feed are handed to standard output.
    The call raises when the stream writes through and the write fails;
    otherwise it returns and the text waits in the buffer of the stream. *)
Definition print (text : string) : M unit :=
  emit (EPrint (text +:+ chr nl)) ;;
  match stdout_fault env text with
  | Some e => raise e
  | None => buffer_stdout (text +:+ chr nl)
  end.

(** *** The functions of [gensystemd.py] *)

Definition generate_service_content (service_name command : string)
  : M string :=
  log INFO ("Generating service content for '" +:+ service_name +:+ "'") ;;
  let description := "Custom service: " +:+ service_name in
  content ← lift (Format.format SERVICE_TEMPLATE
                    (<["description" := description]>
                       (<["command" := command]> ∅))) ;
  log INFO "Service content generated successfully" ;;
  mret content.

(** The name under which the unit file is stored. *)
Definition normalized_name (service_name : string) : string :=
  if negb (endswith service_name ".service")
  then service_name +:+ ".service"
  else service_name.

Definition base_dir : Pathlib.PurePosixPath :=
  Pathlib.parse_path "/etc/systemd/system".

Definition get_service_path (service_name : string)
  : M Pathlib.PurePosixPath :=
  let service_name := normalized_name service_name in
  let service_path := Pathlib.truediv base_dir service_name in
  log INFO ("Service path: " +:+ Pathlib.str service_path) ;;
  mret service_path.

Definition check_root_privileges : M bool :=
  if negb (geteuid env =? 0) then
    log ERROR
      "Root privileges required for installing/saving systemd services" ;;
    log ERROR "Please run with sudo: sudo python3 gensystemd.py ..." ;;
    mret false
  else mret true.

Definition save_service_file (service_path : Pathlib.PurePosixPath)
    (content : string) : M bool :=
  let p := Pathlib.str service_path in
  try_except
    (log INFO ("Saving service file to " +:+ p) ;;
     mkdir_p (Pathlib.parent service_path) ;;
     with_open_w p (write p content) ;;
     chmod p 420 ;;
     log INFO ("Service file saved successfully to " +:+ p) ;;
     mret true)
    (fun e =>
       if is_PermissionError e then
         Some (log ERROR ("Permission denied when writing to " +:+ p) ;;
               log ERROR "Make sure you're running with sudo privileges" ;;
               mret false)
       else if is_Exception e then
         Some (log ERROR ("Error saving service file: " +:+ exn_str e) ;;
               mret false)
       else None).

(** The argument vector: the service name is appended when it is given and
    not empty. *)
Definition full_command (command : list string)
    (service_name : option string) : list string :=
  ("systemctl" :: command)
  ++ match service_name with
     | Some s => if truthy s then [s] else []
     | None => []
     end.

Definition run_systemctl_command (command : list string)
    (service_name : option string) : M bool :=
  let full_command := full_command command service_name in
  log INFO ("Executing: " +:+ join " " full_command) ;;
  try_except
    (result ← subprocess_run full_command ;
     when (truthy (strip (fst result)))
       (log INFO ("Command output: " +:+ strip (fst result))) ;;
     log INFO "Command completed successfully" ;;
     mret true)
    (fun e =>
       match e with
       | CalledProcessError returncode stdout stderr =>
           Some (log ERROR ("Command failed with return code "
                            +:+ pretty returncode) ;;
                 when (truthy stdout) (log ERROR ("stdout: " +:+ stdout)) ;;
                 when (truthy stderr) (log ERROR ("stderr: " +:+ stderr)) ;;
                 mret false)
       | _ =>
           if is_Exception e then
             Some (log ERROR ("Error running systemctl command: "
                              +:+ exn_str e) ;;
                   mret false)
           else None
       end).

Definition install_service (service_name content : string) : M bool :=
  log INFO ("Installing systemd service '" +:+ service_name +:+ "'") ;;
  root ← check_root_privileges ;
  if negb root then mret false else
  service_path ← get_service_path service_name ;
  saved ← save_service_file service_path content ;
  if negb saved then mret false else
  log INFO "Reloading systemd daemon..." ;;
  reloaded ← run_systemctl_command ["daemon-reload"] None ;
  if negb reloaded then
    log ERROR "Failed to reload systemd daemon" ;; mret false
  else
  log INFO ("Enabling service '" +:+ service_name
            +:+ "' to start at boot...") ;;
  enabled ← run_systemctl_command ["enable"] (Some service_name) ;
  if negb enabled then
    log ERROR ("Failed to enable service '" +:+ service_name +:+ "'") ;;
    mret false
  else
  log INFO ("Service '" +:+ service_name
            +:+ "' installed and enabled successfully!") ;;
  log INFO ("You can now start it with: sudo systemctl start "
            +:+ service_name) ;;
  log INFO ("Check status with: sudo systemctl status " +:+ service_name) ;;
  mret true.

Definition save_only_service (service_name content : string) : M bool :=
  log INFO ("Saving systemd service '" +:+ service_name
            +:+ "' (without daemon reload)") ;;
  root ← check_root_privileges ;
  if negb root then mret false else
  service_path ← get_service_path service_name ;
  saved ← save_service_file service_path content ;
  if saved : bool then
    log INFO ("Service '" +:+ service_name +:+ "' saved successfully!") ;;
    log INFO "To complete installation, run:" ;;
    log INFO "  sudo systemctl daemon-reload" ;;
    log INFO ("  sudo systemctl enable " +:+ service_name) ;;
    log INFO ("  sudo systemctl start " +:+ service_name) ;;
    mret true
  else mret false.

(** The namespace [parse_args] returns. *)
Record Args : Type := mkArgs {
  arg_name : string;
  arg_command : string;
  arg_install : bool;
  arg_save : bool;
  arg_verbose : bool
}.

Definition main (args : Args) : M Z :=
  when (arg_verbose args)
    (setLevel DEBUG ;; log DEBUG "Verbose logging enabled") ;;
  if arg_install args && arg_save args then
    log ERROR "Cannot use both --install and --save flags together" ;;
    mret 1
  else
  log INFO ("Starting systemd service generation for '"
            +:+ arg_name args +:+ "'") ;;
  log INFO ("Command: " +:+ arg_command args) ;;
  generated ←
    try_except
      (content ← generate_service_content (arg_name args) (arg_command args) ;
       mret (Some content))
      (fun e =>
         if is_Exception e then
           Some (log ERROR ("Error generating service content: "
                            +:+ exn_str e) ;;
                 mret None)
         else None) ;
  match generated with
  | None => mret 1
  | Some service_content =>
      if arg_install args then
        success ← install_service (arg_name args) service_content ;
        mret (if success : bool then 0 else 1)
      else if arg_save args then
        success ← save_only_service (arg_name args) service_content ;
        mret (if success : bool then 0 else 1)
      else
        log INFO "Outputting service content to stdout" ;;
        print service_content ;;
        log INFO ("Service content generated successfully. "
                  +:+ "Use --install or --save to write to system.") ;;
        mret 0
  end.

(** [sys.exit(code)]: the interpreter flushes standard output on its way
    out, and the exit status is 120 instead of [code] when text is left in
    the buffer and the flush fails. *)
Definition sys_exit (code : Z) (w : World) : Z * World :=
  match stdout_buffer w with
  | EmptyString => (code, w)
  | pending =>
      match exit_flush_fault env pending with
      | Some _ => (120, w)
      | None => (code, w)
      end
  end.

(** The process as it starts: logging is configured at [INFO] and nothing
    is buffered. *)
Definition startup (w : World) : World :=
  mkWorld (files w) INFO (trace w) EmptyString.

(** The block under [if __name__ == '__main__']: [sys.exit(main())] under
    the two outermost handlers. *)
Definition entry_point (args : Args) (w : World) : Z * World :=
  match main args w with
  | (Ok code, w') => sys_exit code w'
  | (Raise KeyboardInterrupt, w') =>
      sys_exit 1 (snd (log INFO "Operation cancelled by user" w'))
  | (Raise e, w') =>
      sys_exit 1 (snd (log ERROR ("Unexpected error: " +:+ exn_str e) w'))
  end.

(** The module run as a script.  The result is the exit status of the
    process. *)
Definition script (args : Args) (w : World) : Z * World :=
  entry_point args (startup w).

End Script.

(** ** Reading a run

    Names for what the statements below speak about. *)

Section Reading.
Import PyStr.

(** The unit file for a description and a command, line by line. *)
Definition unit_lines (description command : string) : list string :=
  [ "[Unit]";
    "Description=" +:+ description;
    "After=network.target network-online.target";
    "Wants=network-online.target";
    "";
    "[Service]";
    "Type=simple";
    "ExecStart=/bin/bash -c " +:+ chr dquote +:+ command +:+ chr dquote;
    "Restart=always";
    "RestartSec=10";
    "User=root";
    "";
    "[Install]";
    "WantedBy=multi-user.target";
    "" ].

Definition unit_text (description command : string) : string :=
  join (chr nl) (unit_lines description command).

(** The literal text of the template before, between and after its two
    replacement fields. *)
Definition template_head : string := "[Unit]" +:+ chr nl +:+ "Description=".
Definition template_mid : string :=
  join (chr nl)
    [ ""; "After=network.target network-online.target";
      "Wants=network-online.target"; ""; "[Service]"; "Type=simple";
      "ExecStart=/bin/bash -c " +:+ chr dquote ].
Definition template_tail : string :=
  join (chr nl)
    [ chr dquote; "Restart=always"; "RestartSec=10"; "User=root"; "";
      "[Install]"; "WantedBy=multi-user.target"; "" ].

(** The lines of a text that start with a given key. *)
Definition lines_starting (key text : string) : list string :=
  List.filter (fun l => startswith l key) (lines text).

(** The Target Path of a service name. *)
Definition target_path (service_name : string) : Pathlib.PurePosixPath :=
  Pathlib.truediv base_dir (normalized_name service_name).

(** The world after a run that started in [w], sent the events [es] to
    the trace (log records subject to the root level) and left the files
    [fs]. *)
Definition after (w : World) (es : list event) (fs : gmap string file)
  : World :=
  mkWorld fs (root_level w) (trace w ++ visible (root_level w) es)
    (stdout_buffer w).

(** The file system calls of one save, in order. *)
Definition save_ops (p : Pathlib.PurePosixPath) (text : string) : list fs_op :=
  [ OpMkdir (Pathlib.str (Pathlib.parent p));
    OpOpen (Pathlib.str p);
    OpWrite (Pathlib.str p) text;
    OpClose (Pathlib.str p);
    OpChmod (Pathlib.str p) 420 ].

Definition no_fault (env : Env) (op : fs_op) : bool :=
  match fs_fault env op with None => true | Some _ => false end.

(** A child process succeeded: it ran, its output was decoded and it
    exited with status zero. *)
Definition exited_zero (o : proc_outcome) : bool :=
  match o with
  | Exited rc _ _ => rc =? 0
  | Undecodable _ _ => false
  | NotRun _ => false
  end.


(** What the runner returns for an outcome of the child process, and the
    log records it writes once the child has been started. *)
Definition runner_result (o : proc_outcome) : result bool :=
  match o with
  | Exited rc _ _ => Ok (rc =? 0)
  | Undecodable _ _ => Ok false
  | NotRun e => if is_Exception e then Ok false else Raise e
  end.

Definition failure_report (rc : Z) (out err : string) : list event :=
  [ELog ERROR ("Command failed with return code " +:+ pretty rc)]
  ++ (if truthy out then [ELog ERROR ("stdout: " +:+ out)] else [])
  ++ (if truthy err then [ELog ERROR ("stderr: " +:+ err)] else []).

Definition runner_report (o : proc_outcome) : list event :=
  match o with
  | Exited rc out err =>
      if rc =? 0 then
        (if truthy (strip out)
         then [ELog INFO ("Command output: " +:+ strip out)] else [])
        ++ [ELog INFO "Command completed successfully"]
      else failure_report rc out err
  | Undecodable _ msg =>
      [ELog ERROR ("Error running systemctl command: " +:+ msg)]
  | NotRun (CalledProcessError rc out err) => failure_report rc out err
  | NotRun e =>
      if is_Exception e
      then [ELog ERROR ("Error running systemctl command: " +:+ exn_str e)]
      else []
  end.

Definition reload_argv : list string := full_command ["daemon-reload"] None.
Definition enable_argv (service_name : string) : list string :=
  full_command ["enable"] (Some service_name).

(** The service-name argument of an [enable] invocation, if any. *)
Definition enable_argument (argv : list string) : option string :=
  match argv with
  | [_; sub; arg] => if String.eqb sub "enable" then Some arg else None
  | _ => None
  end.

(** The events of a save, log records included. *)
Definition save_events (p : Pathlib.PurePosixPath) (text : string)
  : list event :=
  [ELog INFO ("Saving service file to " +:+ Pathlib.str p)]
  ++ map EFs (save_ops p text)
  ++ [ELog INFO ("Service file saved successfully to " +:+ Pathlib.str p)].

(** The events of one call of the runner. *)
Definition runner_events (argv : list string) (o : proc_outcome)
  : list event :=
  [ELog INFO ("Executing: " +:+ join " " argv); ESpawn argv]
  ++ runner_report o.

(** The result and the events of an install that got past the gate and
    saved its file, from the outcomes of the two child processes. *)
Definition install_result (reload enable : proc_outcome) : result bool :=
  match runner_result reload with
  | Ok true => runner_result enable
  | r => r
  end.

Definition install_events (n text : string) (reload enable : proc_outcome)
  : list event :=
  [ELog INFO ("Installing systemd service '" +:+ n +:+ "'");
   ELog INFO ("Service path: " +:+ Pathlib.str (target_path n))]
  ++ save_events (target_path n) text
  ++ [ELog INFO "Reloading systemd daemon..."]
  ++ runner_events reload_argv reload
  ++ match runner_result reload with
     | Ok true =>
         [ELog INFO ("Enabling service '" +:+ n +:+ "' to start at boot...")]
         ++ runner_events (enable_argv n) enable
         ++ match runner_result enable with
            | Ok true =>
                [ELog INFO ("Service '" +:+ n
                            +:+ "' installed and enabled successfully!");
                 ELog INFO ("You can now start it with: "
                            +:+ "sudo systemctl start " +:+ n);
                 ELog INFO ("Check status with: sudo systemctl status "
                            +:+ n)]
            | Ok false =>
                [ELog ERROR ("Failed to enable service '" +:+ n +:+ "'")]
            | Raise _ => []
            end
     | Ok false => [ELog ERROR "Failed to reload systemd daemon"]
     | Raise _ => []
     end.

Definition save_only_events (n text : string) : list event :=
  [ELog INFO ("Saving systemd service '" +:+ n
              +:+ "' (without daemon reload)");
   ELog INFO ("Service path: " +:+ Pathlib.str (target_path n))]
  ++ save_events (target_path n) text
  ++ [ELog INFO ("Service '" +:+ n +:+ "' saved successfully!");
      ELog INFO "To complete installation, run:";
      ELog INFO "  sudo systemctl daemon-reload";
      ELog INFO ("  sudo systemctl enable " +:+ n);
      ELog INFO ("  sudo systemctl start " +:+ n)].

(** Success of each flow, read off the environment alone. *)
Definition save_succeeds (env : Env) (service_name text : string) : bool :=
  (geteuid env =? 0)
  && forallb (no_fault env) (save_ops (target_path service_name) text).

Definition install_succeeds (env : Env) (service_name text : string) : bool :=
  save_succeeds env service_name text
  && exited_zero (spawn env reload_argv)
  && exited_zero (spawn env (enable_argv service_name)).

Definition preview_succeeds (env : Env) (text : string) : bool :=
  match stdout_fault env text with None => true | Some _ => false end.

Definition flow_succeeds (env : Env) (args : Args) : bool :=
  let text := unit_text ("Custom service: " +:+ arg_name args)
                (arg_command args) in
  if arg_install args && arg_save args then false
  else if arg_install args then install_succeeds env (arg_name args) text
  else if arg_save args then save_succeeds env (arg_name args) text
  else preview_succeeds env text.

(** Environments and a world to run the script in: root or an ordinary
    user, no faults, every child process exits with status zero. *)
Definition env_root : Env :=
  mkEnv 0 18 (fun _ => None) (fun _ => 0%nat) (fun _ => Exited 0 "" "")
    (fun _ => None) (fun _ => None).

Definition env_user : Env :=
  mkEnv 1000 18 (fun _ => None) (fun _ => 0%nat) (fun _ => Exited 0 "" "")
    (fun _ => None) (fun _ => None).


Definition world0 : World := mkWorld ∅ INFO [] "".

(** The preview leaves text on standard output that cannot be flushed when
    the interpreter exits. *)
Definition stdout_unflushed (env : Env) (args : Args) : bool :=
  negb (arg_install args) && negb (arg_save args)
  && match exit_flush_fault env
             (unit_text ("Custom service: " +:+ arg_name args)
                (arg_command args) +:+ chr nl) with
     | Some _ => true
     | None => false
     end.

(** The exit status, read off the environment alone. *)
Definition exit_status (env : Env) (args : Args) : Z :=
  if flow_succeeds env args
  then if stdout_unflushed env args then 120 else 0
  else 1.


(** A command with a lone opening brace. *)
Definition brace_command : string := "echo " +:+ chr lbrace.

End Reading.

(** ** Further readings of a run *)

Section Coverage.
Import PyStr.

(** The mode a file gets when [open(path, 'w')] creates or truncates it. *)
Definition opened_mode (env : Env) (fs : gmap string file) (path : string)
  : Z :=
  match fs !! path with
  | Some f => mode f
  | None => Z.land 438 (Z.lnot (umask env))
  end.

(** What the handlers of [save_service_file] log for an exception. *)
Definition save_failure_report (path : string) (e : exn) : list event :=
  if is_PermissionError e then
    [ELog ERROR ("Permission denied when writing to " +:+ path);
     ELog ERROR "Make sure you're running with sudo privileges"]
  else [ELog ERROR ("Error saving service file: " +:+ exn_str e)].

(** Two worlds with the same files, the same effects so far and the same
    text waiting on standard output: they may differ in the root level and
    in the log records of their traces. *)
Definition same_outside_log (w1 w2 : World) : Prop :=
  files w1 = files w2 /\ effects (trace w1) = effects (trace w2)
  /\ stdout_buffer w1 = stdout_buffer w2.

(** A computation whose result, files and effects do not depend on the
    logging state. *)
Definition log_blind {A} (m : M A) : Prop :=
  forall w1 w2, same_outside_log w1 w2 ->
    fst (m w1) = fst (m w2) /\ same_outside_log (snd (m w1)) (snd (m w2)).

(** The root level the script runs at. *)
Definition script_level (verbose : bool) : Level :=
  if verbose then DEBUG else INFO.

(** The world the script starts [main] in, [--verbose] taken into
    account: nothing is buffered on standard output yet. *)
Definition started (verbose : bool) (w : World) : World :=
  mkWorld (files w) (script_level verbose) (trace w) "".

(** The log records of [main] before the mode is looked at. *)
Definition preamble (n c : string) (verbose : bool) : list event :=
  (if verbose then [ELog DEBUG "Verbose logging enabled"] else [])
  ++ [ELog INFO ("Starting systemd service generation for '" +:+ n +:+ "'");
      ELog INFO ("Command: " +:+ c);
      ELog INFO ("Generating service content for '" +:+ n +:+ "'");
      ELog INFO "Service content generated successfully"].

(** What the outermost handlers of the script log for an exception that
    reaches them. *)
Definition last_words (e : exn) : event :=
  match e with
  | KeyboardInterrupt => ELog INFO "Operation cancelled by user"
  | _ => ELog ERROR ("Unexpected error: " +:+ exn_str e)
  end.

(** The shape of every run of the script: the events [es] it added and
    the files [fs] it left, started with the files [fs0].  The effects are
    file system calls of the save, then child processes, then printed text;
    child processes belong to the install mode of root after a save
    without fault; file system calls to root in one of the two writing
    modes; printed text to the preview mode; outside the two writing modes
    the files stay as they were. *)
Definition run_shape (env : Env) (args : Args) (es : list event)
    (fs fs0 : gmap string file) : Prop :=
  let text := unit_text ("Custom service: " +:+ arg_name args)
                (arg_command args) in
  let ops := save_ops (target_path (arg_name args)) text in
  (exists k sp pr,
     effects es = map EFs (firstn k ops) ++ map ESpawn sp ++ pr
     /\ (sp = []
         \/ (arg_install args = true /\ arg_save args = false
             /\ (geteuid env =? 0) = true
             /\ forallb (no_fault env) ops = true
             /\ k = 5%nat
             /\ (sp = [reload_argv]
                 \/ sp = [reload_argv; enable_argv (arg_name args)])))
     /\ (k <> 0%nat ->
         (geteuid env =? 0) = true
         /\ xorb (arg_install args) (arg_save args) = true)
     /\ (pr = []
         \/ (arg_install args = false /\ arg_save args = false
             /\ k = 0%nat /\ sp = []
             /\ pr = [EPrint (text +:+ chr nl)])))
  /\ (xorb (arg_install args) (arg_save args) = false -> fs = fs0).

(** Environments in which one step goes wrong. *)
Definition env_open_denied : Env :=
  mkEnv 0 18
    (fun op => match op with
               | OpOpen _ => Some (PermissionError "[Errno 13] Permission denied")
               | _ => None
               end)
    (fun _ => 0%nat) (fun _ => Exited 0 "" "") (fun _ => None)
    (fun _ => None).

(** The write raises when six characters are in the file. *)
Definition env_write_fails : Env :=
  mkEnv 0 18
    (fun op => match op with
               | OpWrite _ _ => Some (OtherException "[Errno 28] No space left on device")
               | _ => None
               end)
    (fun _ => 6%nat) (fun _ => Exited 0 "" "") (fun _ => None)
    (fun _ => None).

Definition env_chmod_fails : Env :=
  mkEnv 0 18
    (fun op => match op with
               | OpChmod _ _ => Some (PermissionError "[Errno 1] Operation not permitted")
               | _ => None
               end)
    (fun _ => 0%nat) (fun _ => Exited 0 "" "") (fun _ => None)
    (fun _ => None).






(** A world with a unit file already in place. *)
Definition world_with_unit : World :=
  mkWorld (<["/etc/systemd/system/svc.service" := mkFile "old text" 384]> ∅)
    INFO [] "".

End Coverage.

(** * Properties *)

(** ** Strings *)

Module StrFacts.
Import PyStr.

Lemma append_nil_l (a : string) : "" +:+ a = a.
Proof. reflexivity. Qed.

Lemma append_cons (x : ascii) (a b : string) :
  String x a +:+ b = String x (a +:+ b).
Proof. reflexivity. Qed.

Lemma append_assoc (a b c : string) : (a +:+ b) +:+ c = a +:+ (b +:+ c).
Proof.
  induction a as [|x a IH]; [reflexivity |].
  rewrite !append_cons. now rewrite IH.
Qed.

Lemma append_nil_r (a : string) : a +:+ "" = a.
Proof.
  induction a as [|x a IH]; [reflexivity |].
  rewrite append_cons. now rewrite IH.
Qed.

Lemma length_append (a b : string) :
  String.length (a +:+ b) = (String.length a + String.length b)%nat.
Proof.
  induction a as [|x a IH]; [reflexivity |].
  rewrite append_cons. simpl. now rewrite IH.
Qed.

Lemma substring_all (s : string) : substring 0 (String.length s) s = s.
Proof. induction s as [|x s IH]; simpl; [reflexivity | now rewrite IH]. Qed.

Lemma substring_skip (a b : string) :
  substring (String.length a) (String.length b) (a +:+ b) = b.
Proof.
  induction a as [|x a IH]; [apply substring_all |].
  rewrite append_cons. exact IH.
Qed.

(** A string that has just received a suffix ends with it. *)
Lemma endswith_append (s suffix : string) : endswith (s +:+ suffix) suffix = true.
Proof.
  unfold endswith. rewrite length_append.
  replace (String.length s + String.length suffix - String.length suffix)%nat
    with (String.length s) by lia.
  rewrite substring_skip, String.eqb_refl, andb_true_r.
  apply Nat.leb_le; lia.
Qed.

Lemma endswith_length (s suffix : string) :
  endswith s suffix = true -> (String.length suffix <= String.length s)%nat.
Proof.
  unfold endswith; intros H. apply andb_true_iff in H as [H _].
  now apply Nat.leb_le.
Qed.

Lemma contains_append (c : ascii) (a b : string) :
  contains c (a +:+ b) = contains c a || contains c b.
Proof.
  induction a as [|x a IH]; [reflexivity |].
  rewrite append_cons. simpl. now rewrite IH, orb_assoc.
Qed.

Lemma split_nonempty (sep : ascii) (s : string) : split sep s <> [].
Proof.
  induction s as [|x s IH]; simpl; [discriminate |].
  destruct (Ascii.eqb x sep); [discriminate |].
  destruct (split sep s); [contradiction | discriminate].
Qed.

(** Without the separator there is nothing to split. *)
Lemma split_none (sep : ascii) (s : string) :
  contains sep s = false -> split sep s = [s].
Proof.
  induction s as [|x s IH]; simpl; [reflexivity |].
  intros H. apply orb_false_iff in H as [Hx Hs].
  rewrite Hx, (IH Hs). reflexivity.
Qed.

(** Splitting distributes over a separator. *)
Lemma split_app (sep : ascii) (a b : string) :
  split sep (a +:+ String sep b) = split sep a ++ split sep b.
Proof.
  induction a as [|x a IH]; [rewrite append_nil_l | rewrite append_cons]; simpl.
  - now rewrite Ascii.eqb_refl.
  - destruct (Ascii.eqb x sep); [now rewrite IH |].
    rewrite IH. pose proof (split_nonempty sep a) as Hne.
    destruct (split sep a); [contradiction | reflexivity].
Qed.

(** Lines that hold no line feed are recovered from their joining. *)
Lemma lines_join (ls : list string) :
  ls <> [] ->
  Forall (fun l => contains nl l = false) ls ->
  lines (join (chr nl) ls) = ls.
Proof.
  unfold lines. induction ls as [|l ls IH]; [contradiction |].
  intros _ Hall. inversion Hall as [|? ? Hl Hls]; subst.
  destruct ls as [|l' ls].
  - now apply split_none.
  - change (join (chr nl) (l :: l' :: ls))
      with (l +:+ String nl (join (chr nl) (l' :: ls))).
    rewrite split_app, (split_none _ _ Hl), (IH ltac:(discriminate) Hls).
    reflexivity.
Qed.

Lemma startswith_slash (s : string) :
  contains slash s = false -> startswith s "/" = false.
Proof.
  destruct s as [|x s]; [reflexivity |].
  intros H. apply orb_false_iff in H as [Hx _].
  change (startswith (String x s) "/")
    with (Ascii.eqb slash x && startswith s "").
  now rewrite Ascii.eqb_sym, Hx.
Qed.

End StrFacts.

(** ** The template renderer *)

Section Renderer.
Import PyStr StrFacts.

(** The template is literal text around two replacement fields. *)
Lemma template_markup :
  Format.MarkupIterator Format.Text SERVICE_TEMPLATE
  = Format.MLit template_head
      (Format.MField "description"
         (Format.MLit template_mid
            (Format.MField "command" (Format.MLit template_tail Format.MEnd)))).
Proof. vm_compute. reflexivity. Qed.

Lemma unit_text_pieces (description command : string) :
  template_head +:+ description +:+ template_mid +:+ command +:+ template_tail
  = unit_text description command.
Proof.
  unfold unit_text, unit_lines. cbv [join].
  rewrite !append_assoc. reflexivity.
Qed.

(** Expanding the template never fails, whatever the two values are. *)
Lemma format_template (description command : string) :
  Format.format SERVICE_TEMPLATE
    (<["description" := description]> (<["command" := command]> ∅))
  = Ok (unit_text description command).
Proof.
  unfold Format.format. rewrite template_markup.
  cbn [Format.vformat]. unfold Format.get_value.
  change (Format.all_digits "description") with false.
  change (Format.all_digits "command") with false. cbv iota.
  rewrite lookup_insert_eq.
  rewrite lookup_insert_ne by discriminate. rewrite lookup_insert_eq.
  rewrite append_nil_r. now rewrite unit_text_pieces.
Qed.

Lemma generate_service_content_run (name command : string) (w : World) :
  generate_service_content name command w
  = (Ok (unit_text ("Custom service: " +:+ name) command),
     logged INFO "Service content generated successfully"
       (logged INFO ("Generating service content for '" +:+ name +:+ "'") w)).
Proof.
  unfold generate_service_content.
  cbv [mbind M_bind mret M_ret log lift].
  now rewrite format_template.
Qed.

Lemma unit_lines_of_text (description command : string) :
  contains nl description = false ->
  contains nl command = false ->
  lines (unit_text description command) = unit_lines description command.
Proof.
  intros Hd Hc. unfold unit_text. apply lines_join; [discriminate |].
  unfold unit_lines.
  repeat (apply Forall_cons; split);
    rewrite ?contains_append, ?Hd, ?Hc; try reflexivity.
  apply Forall_nil_2.
Qed.

End Renderer.

(** C2 (as amended): when neither the name nor the command holds a line
    feed, the rendered text has exactly one line starting with
    [Description=], which is [Description=Custom service: <name>], and
    exactly one line starting with [ExecStart=], which wraps the command,
    unchanged, between the shell invocation and its closing quote. *)
Theorem render_single_description_and_execstart
    (name command : string) (w : World) :
  PyStr.contains PyStr.nl name = false ->
  PyStr.contains PyStr.nl command = false ->
  exists text,
    fst (generate_service_content name command w) = Ok text
    /\ lines_starting "Description=" text
       = ["Description=Custom service: " +:+ name]
    /\ lines_starting "ExecStart=" text
       = ["ExecStart=/bin/bash -c " +:+ PyStr.chr PyStr.dquote +:+ command
          +:+ PyStr.chr PyStr.dquote].
Proof.
  intros Hn Hc. rewrite generate_service_content_run.
  eexists; split; [reflexivity |].
  unfold lines_starting. rewrite unit_lines_of_text; [| | exact Hc].
  - split; reflexivity.
  - rewrite StrFacts.contains_append, Hn. reflexivity.
Qed.

Lemma render_single_description_and_execstart_witness :
  exists text,
    fst (generate_service_content "backup-service" "/usr/local/bin/backup.sh"
           world0) = Ok text
    /\ lines_starting "Description=" text
       = ["Description=Custom service: backup-service"]
    /\ lines_starting "ExecStart=" text
       = ["ExecStart=/bin/bash -c " +:+ PyStr.chr PyStr.dquote
          +:+ "/usr/local/bin/backup.sh" +:+ PyStr.chr PyStr.dquote].
Proof.
  apply (render_single_description_and_execstart
           "backup-service" "/usr/local/bin/backup.sh" world0);
    reflexivity.
Defined.

(** A command spanning two lines yields two lines starting with
    [ExecStart=]. *)
Lemma render_two_execstart_lines :
  exists text,
    fst (generate_service_content "svc"
           ("true" +:+ PyStr.chr PyStr.nl +:+ "ExecStart=/bin/false") world0)
    = Ok text
    /\ lines_starting "ExecStart=" text
       = ["ExecStart=/bin/bash -c " +:+ PyStr.chr PyStr.dquote +:+ "true";
          "ExecStart=/bin/false" +:+ PyStr.chr PyStr.dquote]
    /\ List.length (lines_starting "ExecStart=" text) <> 1%nat.
Proof.
  eexists; split; [vm_compute; reflexivity |].
  split; [vm_compute; reflexivity | vm_compute; discriminate].
Qed.

(** C8 (as amended): the template has exactly two substitution points,
    [description] and [command]; the rendered file is the template's literal
    text around the description, which is ["Custom service: " + name], and
    the command, inserted as it is. *)
Theorem template_two_substitution_points :
  Format.substitution_points SERVICE_TEMPLATE = ["description"; "command"]
  /\ forall (name command : string) (w : World),
       fst (generate_service_content name command w)
       = Ok (template_head +:+ ("Custom service: " +:+ name) +:+ template_mid
             +:+ command +:+ template_tail).
Proof.
  split; [vm_compute; reflexivity |].
  intros name command w. rewrite generate_service_content_run.
  now rewrite unit_text_pieces.
Qed.

(** The template does not have four substitution points. *)
Lemma template_not_four_substitution_points :
  List.length (Format.substitution_points SERVICE_TEMPLATE) <> 4%nat.
Proof. vm_compute. discriminate. Qed.

(** ** The path resolver *)

Section Resolver.
Import PyStr StrFacts.

(** After normalization the suffix is there. *)
Lemma normalized_name_endswith (n : string) :
  endswith (normalized_name n) ".service" = true.
Proof.
  unfold normalized_name. destruct (endswith n ".service") eqn:E; simpl.
  - exact E.
  - apply endswith_append.
Qed.

Lemma normalized_name_idem (n : string) :
  normalized_name (normalized_name n) = normalized_name n.
Proof.
  unfold normalized_name at 1. now rewrite normalized_name_endswith.
Qed.

Lemma normalized_name_fixed (n : string) :
  normalized_name n = n <-> endswith n ".service" = true.
Proof.
  split.
  - intros <-. apply normalized_name_endswith.
  - intros E. unfold normalized_name. now rewrite E.
Qed.

Lemma normalized_name_no_slash (n : string) :
  contains slash n = false -> contains slash (normalized_name n) = false.
Proof.
  intros H. unfold normalized_name.
  destruct (endswith n ".service"); simpl; [exact H |].
  rewrite contains_append, H. reflexivity.
Qed.

(** A normalized name is neither empty nor the dot component. *)
Lemma normalized_name_kept (n : string) :
  Pathlib.keep_part (normalized_name n) = true.
Proof.
  pose proof (endswith_length _ _ (normalized_name_endswith n)) as Hlen.
  unfold Pathlib.keep_part.
  destruct (normalized_name n) as [|a [|b r]] eqn:E; simpl in Hlen; try lia.
  cbn [String.eqb]. now destruct (Ascii.eqb a ".").
Qed.

Lemma get_service_path_run (n : string) (w : World) :
  get_service_path n w
  = (Ok (target_path n),
     logged INFO ("Service path: " +:+ Pathlib.str (target_path n)) w).
Proof. reflexivity. Qed.

(** A name without a separator becomes one component below the base
    directory. *)
Lemma target_path_plain (n : string) :
  contains slash n = false ->
  target_path n
  = Pathlib.mkPath "/" ["etc"; "systemd"; "system"; normalized_name n].
Proof.
  intros H. apply normalized_name_no_slash in H.
  pose proof (normalized_name_kept n) as Hk.
  unfold target_path, Pathlib.truediv.
  change (Pathlib.str base_dir) with "/etc/systemd/system".
  unfold Pathlib.posix_join. rewrite (startswith_slash _ H).
  change (negb (truthy "/etc/systemd/system")
          || endswith "/etc/systemd/system" "/") with false. cbv iota.
  change ("/etc/systemd/system" +:+ "/" +:+ normalized_name n)
    with (String slash ("etc/systemd/system"
                        +:+ String slash (normalized_name n))).
  unfold Pathlib.parse_path.
  change (Pathlib.splitroot
            (String slash ("etc/systemd/system"
                           +:+ String slash (normalized_name n))))
    with ("/", "etc/systemd/system" +:+ String slash (normalized_name n)).
  cbv iota beta. rewrite split_app, (split_none _ _ H).
  change (split slash "etc/systemd/system")
    with ["etc"; "systemd"; "system"].
  rewrite List.filter_app. simpl List.filter at 2. rewrite Hk.
  reflexivity.
Qed.

End Resolver.

(** ** Worlds *)

Section Worlds.

Lemma effects_app (t1 t2 : list event) :
  effects (t1 ++ t2) = effects t1 ++ effects t2.
Proof. apply List.filter_app. Qed.

Lemma visible_app (root : Level) (t1 t2 : list event) :
  visible root (t1 ++ t2) = visible root t1 ++ visible root t2.
Proof. apply List.filter_app. Qed.

Lemma logged_files (l : Level) (m : string) (w : World) :
  files (logged l m w) = files w.
Proof. unfold logged. now destruct (isEnabledFor l w). Qed.

Lemma logged_level (l : Level) (m : string) (w : World) :
  root_level (logged l m w) = root_level w.
Proof. unfold logged. now destruct (isEnabledFor l w). Qed.

(** A log call adds its record when the level lets it through, and nothing
    else. *)
Lemma logged_trace (l : Level) (m : string) (w : World) :
  trace (logged l m w) = trace w ++ visible (root_level w) [ELog l m].
Proof.
  unfold logged, isEnabledFor, visible. simpl.
  destruct (levelno (root_level w) <=? levelno l); simpl;
    [reflexivity | now rewrite app_nil_r].
Qed.

Lemma logged_effects (l : Level) (m : string) (w : World) :
  effects (trace (logged l m w)) = effects (trace w).
Proof.
  unfold logged. destruct (isEnabledFor l w); [| reflexivity].
  simpl. rewrite effects_app. simpl. now rewrite app_nil_r.
Qed.

End Worlds.


(** C6 (as amended): the resolver returns a value that depends on the
    name alone and leaves the files and the effects of the run as they
    were (it adds an informational log line); the value is the base
    directory joined with the name, to which [.service] is appended exactly
    when the name does not end with it, the check being case-sensitive;
    ["foo"] and ["foo.service"] resolve to the same path; resolving the
    normalized name again yields the same path; and for a name without a
    path separator the file name of the resolved path is the normalized
    name, which resolves to the same path again. *)
Theorem get_service_path_suffix_rule :
  (forall (n : string) (w : World),
     fst (get_service_path n w)
     = Ok (Pathlib.truediv base_dir
             (if PyStr.endswith n ".service" then n else n +:+ ".service"))
     /\ files (snd (get_service_path n w)) = files w
     /\ effects (trace (snd (get_service_path n w))) = effects (trace w))
  /\ (forall w : World,
        fst (get_service_path "foo" w) = fst (get_service_path "foo.service" w)
        /\ fst (get_service_path "foo" w)
           = Ok (Pathlib.mkPath "/" ["etc"; "systemd"; "system"; "foo.service"]))
  /\ (forall w : World,
        fst (get_service_path "foo.SERVICE" w)
        = Ok (Pathlib.mkPath "/"
                ["etc"; "systemd"; "system"; "foo.SERVICE.service"]))
  /\ (forall (n : string) (w : World),
        fst (get_service_path (normalized_name n) w)
        = fst (get_service_path n w))
  /\ (forall (n : string) (w : World),
        PyStr.contains PyStr.slash n = false ->
        exists p,
          fst (get_service_path n w) = Ok p
          /\ Pathlib.name p = normalized_name n
          /\ fst (get_service_path (Pathlib.name p) w) = Ok p).
Proof.
  split; [| split; [| split; [| split]]].
  - intros n w. rewrite get_service_path_run. repeat split.
    + unfold target_path, normalized_name. simpl.
      now destruct (PyStr.endswith n ".service").
    + apply logged_files.
    + apply logged_effects.
  - intros w. split; vm_compute; reflexivity.
  - intros w. vm_compute. reflexivity.
  - intros n w. rewrite !get_service_path_run. simpl. unfold target_path.
    now rewrite normalized_name_idem.
  - intros n w Hn. rewrite get_service_path_run. cbn [fst].
    eexists; split; [reflexivity |].
    rewrite (target_path_plain n Hn).
    change (Pathlib.name
              (Pathlib.mkPath "/"
                 ["etc"; "systemd"; "system"; normalized_name n]))
      with (normalized_name n).
    split; [reflexivity |].
    rewrite get_service_path_run. cbn [fst]. f_equal.
    rewrite <- (target_path_plain n Hn). unfold target_path.
    now rewrite normalized_name_idem.
Qed.

Lemma get_service_path_suffix_rule_witness :
  exists p,
    fst (get_service_path "backup-service" world0) = Ok p
    /\ Pathlib.name p = normalized_name "backup-service"
    /\ fst (get_service_path (Pathlib.name p) world0) = Ok p.
Proof.
  apply (proj2 (proj2 (proj2 (proj2 get_service_path_suffix_rule)))).
  reflexivity.
Defined.

(** The file name of a resolved path need not resolve to that path: below
    a subdirectory it resolves to the base directory itself. *)
Lemma resolved_filename_resolves_elsewhere :
  fst (get_service_path "a/b" world0)
  = Ok (Pathlib.mkPath "/" ["etc"; "systemd"; "system"; "a"; "b.service"])
  /\ Pathlib.name
       (Pathlib.mkPath "/" ["etc"; "systemd"; "system"; "a"; "b.service"])
     = "b.service"
  /\ fst (get_service_path "b.service" world0)
     = Ok (Pathlib.mkPath "/" ["etc"; "systemd"; "system"; "b.service"])
  /\ fst (get_service_path "b.service" world0)
     <> fst (get_service_path "a/b" world0).
Proof.
  repeat split; try (vm_compute; reflexivity).
  vm_compute. discriminate.
Qed.

(** C10: a name beginning with [../] resolves to a path outside the base
    directory, and so does an absolute name; nothing stops the save-only
    and install flows, which write the rendered file there and exit with
    status 0. *)
Theorem target_path_escapes_base_dir :
  exists name : string,
    PyStr.startswith name "../" = true
    /\ (forall w, fst (get_service_path name w)
                  = Ok (Pathlib.mkPath "/"
                          ["etc"; "systemd"; "system"; ".."; "evil.service"]))
    /\ Pathlib.lies_inside base_dir (target_path name) = false
    /\ (forall mode_flag : bool,
          let args := mkArgs name "true" mode_flag (negb mode_flag) false in
          let run := script env_root args world0 in
          fst run = 0
          /\ files (snd run) !! "/etc/systemd/system/../evil.service"
             = Some (mkFile (unit_text ("Custom service: " +:+ name) "true")
                            420)
          /\ fs_ops (trace (snd run))
             = map EFs (save_ops (target_path name)
                          (unit_text ("Custom service: " +:+ name) "true")))
    /\ Pathlib.str (target_path "/tmp/evil") = "/tmp/evil.service"
    /\ Pathlib.lies_inside base_dir (target_path "/tmp/evil") = false.
Proof.
  exists "../evil".
  split; [reflexivity |].
  split; [intros w; vm_compute; reflexivity |].
  split; [vm_compute; reflexivity |].
  split; [| split; vm_compute; reflexivity].
  intros [|]; vm_compute; repeat split; reflexivity.
Qed.

(** ** Running the monad *)

Section Running.

Lemma visible_effects (root : Level) (es : list event) :
  effects (visible root es) = effects es.
Proof.
  induction es as [|e es IH]; [reflexivity |].
  destruct e; simpl; rewrite ?IH; try reflexivity.
  destruct (levelno root <=? levelno lvl); simpl; now rewrite ?IH.
Qed.

Lemma after_nothing (w : World) : after w [] (files w) = w.
Proof. destruct w. unfold after. simpl. now rewrite app_nil_r. Qed.

Lemma after_after (w : World) (es1 es2 : list event)
    (fs1 fs2 : gmap string file) :
  after (after w es1 fs1) es2 fs2 = after w (es1 ++ es2) fs2.
Proof.
  unfold after. simpl. now rewrite visible_app, app_assoc.
Qed.

(** The three world transformers, applied to a world in [after] form. *)
Lemma logged_after (l : Level) (m : string) (w : World) (es : list event)
    (fs : gmap string file) :
  logged l m (after w es fs) = after w (es ++ [ELog l m]) fs.
Proof.
  unfold logged, isEnabledFor, after. simpl.
  rewrite visible_app. simpl.
  destruct (levelno (root_level w) <=? levelno l); simpl.
  - unfold record. simpl. now rewrite app_assoc.
  - now rewrite app_nil_r.
Qed.

Lemma record_after (e : event) (w : World) (es : list event)
    (fs : gmap string file) :
  is_log e = false -> record e (after w es fs) = after w (es ++ [e]) fs.
Proof.
  intros He. unfold record, after. simpl. rewrite visible_app, app_assoc.
  destruct e; [discriminate | reflexivity ..].
Qed.

Lemma with_files_after (f : gmap string file -> gmap string file)
    (w : World) (es : list event) (fs : gmap string file) :
  with_files f (after w es fs) = after w es (f fs).
Proof. reflexivity. Qed.

(** A run may be read from the [after] form of its initial world. *)
Lemma run_from_after {A} (m : M A) (w : World) (r : result A * World) :
  m (after w [] (files w)) = r -> m w = r.
Proof. now rewrite after_nothing. Qed.

Lemma after_files (w : World) (es : list event) (fs : gmap string file) :
  files (after w es fs) = fs.
Proof. reflexivity. Qed.

(** Text in the buffer of standard output commutes with the rest. *)
Lemma logged_buffered (l : Level) (m text : string) (w : World) :
  logged l m (buffered text w) = buffered text (logged l m w).
Proof.
  unfold logged, isEnabledFor, buffered. simpl.
  now destruct (levelno (root_level w) <=? levelno l).
Qed.

Lemma record_buffered (e : event) (text : string) (w : World) :
  record e (buffered text w) = buffered text (record e w).
Proof. reflexivity. Qed.

Lemma buffered_nothing (w : World) : buffered "" w = w.
Proof.
  destruct w. unfold buffered. simpl. now rewrite StrFacts.append_nil_r.
Qed.

Lemma buffered_files (text : string) (w : World) :
  files (buffered text w) = files w.
Proof. reflexivity. Qed.

Lemma buffered_trace (text : string) (w : World) :
  trace (buffered text w) = trace w.
Proof. reflexivity. Qed.

Lemma after_effects (w : World) (es : list event) (fs : gmap string file) :
  effects (trace (after w es fs)) = effects (trace w) ++ effects es.
Proof. unfold after. simpl. now rewrite effects_app, visible_effects. Qed.

End Running.

(** Symbolic execution: unfold the script and the monad, then bring the
    resulting world to the form [after w es fs]. *)
Ltac unfold_script :=
  cbv beta iota zeta delta
    [install_service save_only_service check_root_privileges
     get_service_path save_service_file run_systemctl_command
     mkdir_p with_open_w closing open_w write close chmod fs_call
     subprocess_run print main
     mbind M_bind mret M_ret raise lift try_except emit log setLevel
     update_files buffer_stdout when negb is_Exception is_PermissionError fst snd].

Ltac unfold_flow :=
  cbv beta iota zeta delta
    [install_service save_only_service main print
     mbind M_bind mret M_ret raise lift try_except emit log setLevel
     buffer_stdout when negb is_Exception fst snd].

Ltac unfold_main :=
  cbv beta iota zeta delta
    [main print mbind M_bind mret M_ret raise lift try_except emit log
     setLevel buffer_stdout when negb is_Exception fst snd].

Ltac to_after :=
  repeat first
    [ rewrite logged_after
    | rewrite record_after by reflexivity
    | rewrite with_files_after
    | rewrite after_after
    | rewrite logged_buffered
    | rewrite record_buffered
    | match goal with
      | |- context [files (after ?w ?es ?fs)] =>
          change (files (after w es fs)) with fs
      end
    | progress cbn [app]
    | progress cbv beta ].

(** Two event lists that differ by the bracketing of their appends. *)
Ltac same_events :=
  repeat first
    [ rewrite <- app_assoc
    | rewrite app_nil_r
    | progress cbn [app] ];
  reflexivity.

(** One call of a function of the script, by its run lemma. *)
Ltac step lem := rewrite lem; cbv beta iota; to_after.

Section Flows.
Import PyStr StrFacts.

Variable env : Env.

Lemma check_root_privileges_run (w : World) :
  check_root_privileges env w
  = if geteuid env =? 0 then (Ok true, w)
    else (Ok false,
          after w
            [ELog ERROR
               "Root privileges required for installing/saving systemd services";
             ELog ERROR "Please run with sudo: sudo python3 gensystemd.py ..."]
            (files w)).
Proof.
  apply run_from_after. unfold_script.
  destruct (geteuid env =? 0); cbv iota; to_after;
    [now rewrite after_nothing | reflexivity].
Qed.

Lemma no_faults_inv (p : Pathlib.PurePosixPath) (text : string) :
  forallb (no_fault env) (save_ops p text) = true ->
  Forall (fun op => fs_fault env op = None) (save_ops p text).
Proof.
  intros H. apply Forall_forall. intros op Hin.
  rewrite forallb_forall in H. specialize (H op).
  unfold no_fault in H. destruct (fs_fault env op); [| reflexivity].
  discriminate H. now apply list_elem_of_In.
Qed.

(** What a save leaves at its path, whatever was there. *)
Lemma saved_files (k text : string) (fs : gmap string file) :
  alter (fun f => mkFile (content f) 420) k
    (id (alter (fun f => mkFile (content f +:+ text) (mode f)) k
       (match fs !! k with
        | Some f => <[k := mkFile "" (mode f)]> fs
        | None => <[k := mkFile "" (Z.land 438 (Z.lnot (umask env)))]> fs
        end)))
  = <[k := mkFile text 420]> fs.
Proof.
  unfold id. destruct (fs !! k); now rewrite !alter_insert_eq.
Qed.

(** A save without faults: the five calls in order, the file in place. *)
Lemma save_service_file_ok (p : Pathlib.PurePosixPath) (text : string)
    (w : World) :
  forallb (no_fault env) (save_ops p text) = true ->
  save_service_file env p text w
  = (Ok true,
     after w (save_events p text)
       (<[Pathlib.str p := mkFile text 420]> (files w))).
Proof.
  intros H. apply no_faults_inv in H.
  unfold save_ops in H.
  repeat match type of H with
         | Forall _ (_ :: _) =>
             let E := fresh "E" in
             apply Forall_cons in H as [E H]
         end.
  apply run_from_after.
  unfold_script. rewrite E, E0, E1, E2, E3. cbv iota.
  to_after. rewrite saved_files. reflexivity.
Qed.

(** The runner: one child process, the outcome mapped to a boolean, the
    diagnostics logged. *)
Lemma run_systemctl_command_run (command : list string)
    (service_name : option string) (w : World) :
  run_systemctl_command env command service_name w
  = (runner_result (spawn env (full_command command service_name)),
     after w
       (runner_events (full_command command service_name)
          (spawn env (full_command command service_name)))
       (files w)).
Proof.
  apply run_from_after. unfold_script.
  destruct (spawn env (full_command command service_name))
    as [rc out err | rc msg | e]; cbv iota beta.
  - unfold runner_events, runner_result, runner_report, failure_report.
    destruct (rc =? 0); cbv iota.
    + destruct (truthy (strip out)); now to_after.
    + destruct (truthy out), (truthy err); now to_after.
  - unfold runner_events, runner_result, runner_report. now to_after.
  - unfold runner_events, runner_result, runner_report, failure_report.
    destruct e; cbv iota beta delta [is_Exception]; try now to_after.
    destruct (truthy stdout), (truthy stderr); now to_after.
Qed.

(** The outcome of a save, whatever the faults: it succeeds exactly when
    none of its five calls raises. *)
Lemma save_service_file_result (p : Pathlib.PurePosixPath) (text : string)
    (w : World) :
  fst (save_service_file env p text w) = Ok true
  <-> forallb (no_fault env) (save_ops p text) = true.
Proof.
  split.
  - unfold save_ops, forallb, no_fault. unfold_script.
    repeat match goal with
           | |- context [fs_fault env ?op] =>
               let e := fresh "e" in
               destruct (fs_fault env op) as [e|]; [destruct e |];
               cbv iota beta; try discriminate
           end.
    reflexivity.
  - intros H. now rewrite save_service_file_ok.
Qed.

(** A save returns or is interrupted; no other exception leaves it. *)
Lemma save_service_file_total (p : Pathlib.PurePosixPath) (text : string)
    (w : World) :
  (exists b, fst (save_service_file env p text w) = Ok b)
  \/ fst (save_service_file env p text w) = Raise KeyboardInterrupt.
Proof.
  unfold_script.
  repeat match goal with
         | |- context [fs_fault env ?op] =>
             let e := fresh "e" in
             destruct (fs_fault env op) as [e|]; [destruct e |];
             cbv iota beta
         end;
    solve [left; eexists; reflexivity | right; reflexivity].
Qed.

(** Without root privileges both flows stop at the gate. *)
Lemma install_service_user (n text : string) (w : World) :
  (geteuid env =? 0) = false ->
  install_service env n text w
  = (Ok false,
     after w
       [ELog INFO ("Installing systemd service '" +:+ n +:+ "'");
        ELog ERROR
          "Root privileges required for installing/saving systemd services";
        ELog ERROR "Please run with sudo: sudo python3 gensystemd.py ..."]
       (files w)).
Proof.
  intros Hu. apply run_from_after. unfold_flow. to_after.
  rewrite check_root_privileges_run, Hu. cbv iota. now to_after.
Qed.

Lemma save_only_service_user (n text : string) (w : World) :
  (geteuid env =? 0) = false ->
  save_only_service env n text w
  = (Ok false,
     after w
       [ELog INFO ("Saving systemd service '" +:+ n
                   +:+ "' (without daemon reload)");
        ELog ERROR
          "Root privileges required for installing/saving systemd services";
        ELog ERROR "Please run with sudo: sudo python3 gensystemd.py ..."]
       (files w)).
Proof.
  intros Hu. apply run_from_after. unfold_flow. to_after.
  rewrite check_root_privileges_run, Hu. cbv iota. now to_after.
Qed.

(** The install flow of root when the save meets no fault: the file is
    written, then the daemon is reloaded, then the unit is enabled, each
    step only after the one before it succeeded. *)
Lemma install_service_root (n text : string) (w : World) :
  (geteuid env =? 0) = true ->
  forallb (no_fault env) (save_ops (target_path n) text) = true ->
  install_service env n text w
  = (install_result (spawn env reload_argv) (spawn env (enable_argv n)),
     after w
       (install_events n text (spawn env reload_argv)
          (spawn env (enable_argv n)))
       (<[Pathlib.str (target_path n) := mkFile text 420]> (files w))).
Proof.
  intros Hr Hs. apply run_from_after. unfold_flow. to_after.
  rewrite check_root_privileges_run, Hr. cbv iota.
  step get_service_path_run.
  rewrite (save_service_file_ok _ _ _ Hs). cbv iota beta. to_after.
  step run_systemctl_command_run.
  fold reload_argv. unfold install_result, install_events.
  destruct (runner_result (spawn env reload_argv)) as [[|]|e];
    cbv iota beta; to_after; [| same_events ..].
  step run_systemctl_command_run. fold (enable_argv n).
  destruct (runner_result (spawn env (enable_argv n))) as [[|]|e'];
    cbv iota beta; to_after; same_events.
Qed.

Lemma save_only_service_root (n text : string) (w : World) :
  (geteuid env =? 0) = true ->
  forallb (no_fault env) (save_ops (target_path n) text) = true ->
  save_only_service env n text w
  = (Ok true,
     after w (save_only_events n text)
       (<[Pathlib.str (target_path n) := mkFile text 420]> (files w))).
Proof.
  intros Hr Hs. apply run_from_after. unfold_flow. to_after.
  rewrite check_root_privileges_run, Hr. cbv iota.
  step get_service_path_run.
  rewrite (save_service_file_ok _ _ _ Hs). cbv iota beta. to_after.
  unfold save_only_events. same_events.
Qed.


Lemma exited_zero_result (o : proc_outcome) :
  exited_zero o = true -> runner_result o = Ok true.
Proof.
  destruct o as [rc out err | rc msg | e]; simpl;
    [now intros -> | discriminate ..].
Qed.


Lemma runner_result_true (o : proc_outcome) :
  runner_result o = Ok true <-> exited_zero o = true.
Proof.
  destruct o as [rc out err | rc msg | e]; simpl.
  - split; [now intros [= ->] | now intros ->].
  - split; discriminate.
  - destruct (is_Exception e); split; discriminate.
Qed.

(** The runner's report is log records only. *)
Lemma runner_report_effects (o : proc_outcome) :
  effects (runner_report o) = [].
Proof.
  destruct o as [rc out err | rc msg | e];
    unfold runner_report, failure_report.
  - destruct (rc =? 0), (truthy (strip out)), (truthy out), (truthy err);
      reflexivity.
  - reflexivity.
  - destruct e; try reflexivity.
    destruct (truthy stdout), (truthy stderr); reflexivity.
Qed.

Lemma runner_events_effects (argv : list string) (o : proc_outcome) :
  effects (runner_events argv o) = [ESpawn argv].
Proof.
  unfold runner_events. rewrite effects_app, runner_report_effects.
  reflexivity.
Qed.

Lemma save_events_effects (p : Pathlib.PurePosixPath) (text : string) :
  effects (save_events p text) = map EFs (save_ops p text).
Proof. reflexivity. Qed.

Lemma save_only_events_effects (n text : string) :
  effects (save_only_events n text) = map EFs (save_ops (target_path n) text).
Proof. reflexivity. Qed.

(** The effects of an install that saved its file: the save, the reload
    and, when the reload succeeded, the enable. *)
Lemma install_events_effects (n text : string) (reload enable : proc_outcome) :
  effects (install_events n text reload enable)
  = map EFs (save_ops (target_path n) text)
    ++ ESpawn reload_argv
       :: match runner_result reload with
          | Ok true => [ESpawn (enable_argv n)]
          | _ => []
          end.
Proof.
  unfold install_events.
  rewrite !effects_app, save_events_effects, runner_events_effects.
  destruct (runner_result reload) as [[|]|e]; try reflexivity.
  rewrite !effects_app, runner_events_effects.
  destruct (runner_result enable) as [[|]|e]; reflexivity.
Qed.

(** Process and file system calls are read off the effects. *)
Lemma spawns_effects (t : list event) : spawns (effects t) = spawns t.
Proof.
  induction t as [|e t IH]; [reflexivity |].
  destruct e; simpl; now rewrite ?IH.
Qed.

Lemma fs_ops_effects (t : list event) : fs_ops (effects t) = fs_ops t.
Proof.
  induction t as [|e t IH]; [reflexivity |].
  destruct e; simpl; now rewrite ?IH.
Qed.

Lemma spawns_app (t1 t2 : list event) :
  spawns (t1 ++ t2) = spawns t1 ++ spawns t2.
Proof. apply List.filter_app. Qed.

Lemma fs_ops_app (t1 t2 : list event) :
  fs_ops (t1 ++ t2) = fs_ops t1 ++ fs_ops t2.
Proof. apply List.filter_app. Qed.

Lemma spawns_fs (ops : list fs_op) : spawns (map EFs ops) = [].
Proof. induction ops; [reflexivity | exact IHops]. Qed.

Lemma fs_ops_fs (ops : list fs_op) : fs_ops (map EFs ops) = map EFs ops.
Proof. induction ops; [reflexivity | simpl; now rewrite IHops]. Qed.

(** Success of the save-only flow, whatever the faults. *)
Lemma save_only_service_result (n text : string) (w : World) :
  fst (save_only_service env n text w) = Ok true
  <-> save_succeeds env n text = true.
Proof.
  unfold save_succeeds.
  destruct (geteuid env =? 0) eqn:Hr.
  - destruct (forallb (no_fault env) (save_ops (target_path n) text)) eqn:Hs.
    + now rewrite save_only_service_root.
    + unfold_flow. rewrite check_root_privileges_run, Hr. cbv iota.
      rewrite get_service_path_run. cbv iota beta.
      match goal with
      | |- context [save_service_file env ?p ?t ?w0] =>
          pose proof (save_service_file_result p t w0) as Hres;
          destruct (save_service_file env p t w0) as [[[|]|e] w2]
      end; cbn [fst] in *; split; try discriminate.
      intros _. rewrite Hs in Hres. now apply Hres.
  - rewrite save_only_service_user by exact Hr. split; discriminate.
Qed.

(** Success of the install flow, whatever the faults and outcomes. *)
Lemma install_service_result (n text : string) (w : World) :
  fst (install_service env n text w) = Ok true
  <-> install_succeeds env n text = true.
Proof.
  unfold install_succeeds, save_succeeds.
  destruct (geteuid env =? 0) eqn:Hr.
  - destruct (forallb (no_fault env) (save_ops (target_path n) text)) eqn:Hs.
    + rewrite install_service_root by assumption. cbn [fst andb].
      unfold install_result.
      pose proof (runner_result_true (spawn env reload_argv)) as H1.
      pose proof (runner_result_true (spawn env (enable_argv n))) as H2.
      destruct (runner_result (spawn env reload_argv)) as [[|]|e].
      * rewrite (proj1 H1 eq_refl). exact H2.
      * destruct (exited_zero (spawn env reload_argv));
          [destruct H1 as [_ H1]; discriminate (H1 eq_refl)
          | split; discriminate].
      * destruct (exited_zero (spawn env reload_argv));
          [destruct H1 as [_ H1]; discriminate (H1 eq_refl)
          | split; discriminate].
    + unfold_flow. rewrite check_root_privileges_run, Hr. cbv iota.
      rewrite get_service_path_run. cbv iota beta.
      match goal with
      | |- context [save_service_file env ?p ?t ?w0] =>
          pose proof (save_service_file_result p t w0) as Hres;
          destruct (save_service_file env p t w0) as [[[|]|e] w2]
      end; cbn [fst andb] in *; split; try discriminate.
      intros _. rewrite Hs in Hres. now apply Hres.
  - rewrite install_service_user by exact Hr. split; discriminate.
Qed.

End Flows.

(** ** The flows *)

(** C3: when the effective user is not root, the privilege check returns
    false, and the install flow and the save-only flow both return failure
    with the files as they were and no file system call, child process or
    printed text added to the run. *)
Theorem unprivileged_flows_touch_nothing
    (env : Env) (n text : string) (w : World) :
  geteuid env <> 0 ->
  fst (check_root_privileges env w) = Ok false
  /\ (fst (install_service env n text w) = Ok false
      /\ files (snd (install_service env n text w)) = files w
      /\ effects (trace (snd (install_service env n text w)))
         = effects (trace w))
  /\ (fst (save_only_service env n text w) = Ok false
      /\ files (snd (save_only_service env n text w)) = files w
      /\ effects (trace (snd (save_only_service env n text w)))
         = effects (trace w)).
Proof.
  intros Hu. apply Z.eqb_neq in Hu.
  rewrite check_root_privileges_run, Hu.
  rewrite (install_service_user env n text w Hu).
  rewrite (save_only_service_user env n text w Hu).
  cbn [fst snd]. rewrite !after_effects, !after_files.
  cbn [effects List.filter is_log negb]. rewrite app_nil_r.
  repeat split; reflexivity.
Qed.

Lemma unprivileged_flows_touch_nothing_witness :
  fst (check_root_privileges env_user world0) = Ok false
  /\ (fst (install_service env_user "backup-service" "text" world0) = Ok false
      /\ files (snd (install_service env_user "backup-service" "text" world0))
         = files world0
      /\ effects
           (trace (snd (install_service env_user "backup-service" "text"
                          world0)))
         = effects (trace world0))
  /\ (fst (save_only_service env_user "backup-service" "text" world0)
      = Ok false
      /\ files (snd (save_only_service env_user "backup-service" "text"
                       world0))
         = files world0
      /\ effects
           (trace (snd (save_only_service env_user "backup-service" "text"
                          world0)))
         = effects (trace world0)).
Proof.
  apply (unprivileged_flows_touch_nothing env_user "backup-service" "text"
           world0).
  discriminate.
Defined.



(** C1 (as amended): in a run of the install flow that reaches the
    supervisor, the reload is invoked with no service name and the enable
    with the service name exactly as it was given (and with none when the
    name is empty), while the file is written at the Target Path, built from
    the normalized name; the save-only flow invokes no supervisor command.
    The name given to the enable step equals the normalized name exactly
    when the given name already ends with [.service]. *)
Theorem enable_receives_name_as_given
    (env : Env) (n text : string) (w : World) :
  geteuid env = 0 ->
  forallb (no_fault env) (save_ops (target_path n) text) = true ->
  exited_zero (spawn env reload_argv) = true ->
  (spawns (trace (snd (install_service env n text w)))
   = spawns (trace w)
     ++ [ESpawn ["systemctl"; "daemon-reload"];
         ESpawn (["systemctl"; "enable"]
                 ++ if PyStr.truthy n then [n] else [])]
   /\ fs_ops (trace (snd (install_service env n text w)))
      = fs_ops (trace w)
        ++ map EFs (save_ops (Pathlib.truediv base_dir (normalized_name n))
                      text))
  /\ (spawns (trace (snd (save_only_service env n text w)))
      = spawns (trace w)
      /\ fs_ops (trace (snd (save_only_service env n text w)))
         = fs_ops (trace w)
           ++ map EFs (save_ops (Pathlib.truediv base_dir
                                   (normalized_name n)) text))
  /\ (n = normalized_name n <-> PyStr.endswith n ".service" = true).
Proof.
  intros Hr Hs Hreload. apply Z.eqb_eq in Hr.
  rewrite (install_service_root env n text w Hr Hs).
  rewrite (save_only_service_root env n text w Hr Hs). cbn [snd].
  apply exited_zero_result in Hreload.
  fold (target_path n).
  split; [split | split; [split |]].
  - rewrite <- spawns_effects, after_effects, install_events_effects,
      Hreload, !spawns_app, spawns_effects, spawns_fs.
    reflexivity.
  - rewrite <- fs_ops_effects, after_effects, install_events_effects,
      Hreload, !fs_ops_app, fs_ops_effects, fs_ops_fs.
    cbn [fs_ops List.filter is_fs]. now rewrite app_nil_r.
  - rewrite <- spawns_effects, after_effects, save_only_events_effects,
      spawns_app, spawns_effects, spawns_fs.
    now rewrite app_nil_r.
  - rewrite <- fs_ops_effects, after_effects, save_only_events_effects,
      fs_ops_app, fs_ops_effects, fs_ops_fs.
    reflexivity.
  - split; intros H; [| symmetry]; now apply normalized_name_fixed.
Qed.

Lemma enable_receives_name_as_given_witness :
  (spawns (trace (snd (install_service env_root "foo" "text" world0)))
   = spawns (trace world0)
     ++ [ESpawn ["systemctl"; "daemon-reload"];
         ESpawn (["systemctl"; "enable"]
                 ++ if PyStr.truthy "foo" then ["foo"] else [])]
   /\ fs_ops (trace (snd (install_service env_root "foo" "text" world0)))
      = fs_ops (trace world0)
        ++ map EFs (save_ops (Pathlib.truediv base_dir
                                (normalized_name "foo")) "text"))
  /\ (spawns (trace (snd (save_only_service env_root "foo" "text" world0)))
      = spawns (trace world0)
      /\ fs_ops (trace (snd (save_only_service env_root "foo" "text" world0)))
         = fs_ops (trace world0)
           ++ map EFs (save_ops (Pathlib.truediv base_dir
                                   (normalized_name "foo")) "text"))
  /\ ("foo" = normalized_name "foo"
      <-> PyStr.endswith "foo" ".service" = true).
Proof.
  apply (enable_receives_name_as_given env_root "foo" "text" world0);
    reflexivity.
Defined.

(** For the name [foo] the file is written as [foo.service] and the
    enable step is given [foo]: the two names differ. *)
Lemma enable_name_differs_from_file_name :
  spawns (trace (snd (install_service env_root "foo" "text" world0)))
  = [ESpawn ["systemctl"; "daemon-reload"];
     ESpawn ["systemctl"; "enable"; "foo"]]
  /\ fs_ops (trace (snd (install_service env_root "foo" "text" world0)))
     = map EFs (save_ops (Pathlib.mkPath "/"
                            ["etc"; "systemd"; "system"; "foo.service"])
                  "text")
  /\ normalized_name "foo" = "foo.service"
  /\ enable_argument ["systemctl"; "enable"; "foo"]
     <> Some (normalized_name "foo").
Proof.
  repeat split; try (vm_compute; reflexivity).
  vm_compute. discriminate.
Qed.




(** * Further properties *)

(** ** The file writer under faults *)

Section Writer.

Variable env : Env.

Lemma after_intro {A} (m : M A) (w : World)
    (P : result A -> list event -> gmap string file -> Prop) :
  (exists r es fs, m (after w [] (files w)) = (r, after w es fs) /\ P r es fs) ->
  exists r es fs, m w = (r, after w es fs) /\ P r es fs.
Proof. now rewrite after_nothing. Qed.

(** Every way a save can go: its result, the calls it made and the files
    it left. *)
Lemma save_service_file_cases (p : Pathlib.PurePosixPath) (text : string)
    (w : World) :
  exists r es fs,
    save_service_file env p text w = (r, after w es fs)
    /\ ((exists b, r = Ok b) \/ r = Raise KeyboardInterrupt)
       /\ (exists k, effects es = map EFs (firstn k (save_ops p text))).
Proof.
  apply after_intro. unfold save_ops. unfold_script.
  repeat match goal with
         | |- context [fs_fault env ?op] =>
             destruct (fs_fault env op) as [[]|] eqn:?; cbv iota beta
         end.
  all: to_after.
  all: do 3 eexists; split; [reflexivity |].
  all: split; [solve [left; eexists; reflexivity | right; reflexivity] |].
  all: first [ exists 1%nat; reflexivity | exists 2%nat; reflexivity
             | exists 3%nat; reflexivity | exists 4%nat; reflexivity
             | exists 5%nat; reflexivity ].
Qed.

(** What a file holds when the write or the close that followed the
    opening raised: the characters that had reached it. *)
Lemma alter_opened (k : string) (g : file -> file)
    (fs : gmap string file) (m0 : Z) :
  alter g k
    (match fs !! k with
     | Some f => <[k := mkFile "" (mode f)]> fs
     | None => <[k := mkFile "" m0]> fs
     end)
  = <[k := g (mkFile "" (match fs !! k with
                         | Some f => mode f
                         | None => m0
                         end))]> fs.
Proof. destruct (fs !! k); now rewrite alter_insert_eq. Qed.

(** The ways a save stops half way. *)
Lemma save_service_file_open_fault (p : Pathlib.PurePosixPath)
    (text : string) (w : World) (e : exn) :
  fs_fault env (OpMkdir (Pathlib.str (Pathlib.parent p))) = None ->
  fs_fault env (OpOpen (Pathlib.str p)) = Some e ->
  is_Exception e = true ->
  save_service_file env p text w
  = (Ok false,
     after w
       ([ELog INFO ("Saving service file to " +:+ Pathlib.str p);
         EFs (OpMkdir (Pathlib.str (Pathlib.parent p)));
         EFs (OpOpen (Pathlib.str p))]
        ++ save_failure_report (Pathlib.str p) e)
       (files w)).
Proof.
  intros H1 H2 He. apply run_from_after. unfold_script.
  rewrite H1, H2. cbv iota beta.
  destruct e; try discriminate He; cbv iota beta; now to_after.
Qed.

Lemma save_service_file_write_fault (p : Pathlib.PurePosixPath)
    (text : string) (w : World) (e : exn) :
  fs_fault env (OpMkdir (Pathlib.str (Pathlib.parent p))) = None ->
  fs_fault env (OpOpen (Pathlib.str p)) = None ->
  fs_fault env (OpWrite (Pathlib.str p) text) = Some e ->
  fs_fault env (OpClose (Pathlib.str p)) = None ->
  is_Exception e = true ->
  save_service_file env p text w
  = (Ok false,
     after w
       ([ELog INFO ("Saving service file to " +:+ Pathlib.str p);
         EFs (OpMkdir (Pathlib.str (Pathlib.parent p)));
         EFs (OpOpen (Pathlib.str p));
         EFs (OpWrite (Pathlib.str p) text);
         EFs (OpClose (Pathlib.str p))]
        ++ save_failure_report (Pathlib.str p) e)
       (<[Pathlib.str p
          := mkFile
               (substring 0 (reached env (OpWrite (Pathlib.str p) text)) text)
               (opened_mode env (files w) (Pathlib.str p))]>
          (files w))).
Proof.
  intros H1 H2 H3 H4 He. apply run_from_after. unfold_script.
  rewrite H1, H2, H3, H4. cbv iota beta.
  destruct e; try discriminate He; cbv iota beta; to_after;
    unfold id, opened_mode; now rewrite alter_opened.
Qed.

Lemma save_service_file_close_fault (p : Pathlib.PurePosixPath)
    (text : string) (w : World) (e : exn) :
  fs_fault env (OpMkdir (Pathlib.str (Pathlib.parent p))) = None ->
  fs_fault env (OpOpen (Pathlib.str p)) = None ->
  fs_fault env (OpWrite (Pathlib.str p) text) = None ->
  fs_fault env (OpClose (Pathlib.str p)) = Some e ->
  is_Exception e = true ->
  save_service_file env p text w
  = (Ok false,
     after w
       ([ELog INFO ("Saving service file to " +:+ Pathlib.str p);
         EFs (OpMkdir (Pathlib.str (Pathlib.parent p)));
         EFs (OpOpen (Pathlib.str p));
         EFs (OpWrite (Pathlib.str p) text);
         EFs (OpClose (Pathlib.str p))]
        ++ save_failure_report (Pathlib.str p) e)
       (<[Pathlib.str p
          := mkFile
               (substring 0 (reached env (OpClose (Pathlib.str p))) text)
               (opened_mode env (files w) (Pathlib.str p))]>
          (files w))).
Proof.
  intros H1 H2 H3 H4 He. apply run_from_after. unfold_script.
  rewrite H1, H2, H3, H4. cbv iota beta.
  destruct e; try discriminate He; cbv iota beta; to_after;
    unfold id, opened_mode;
    now rewrite alter_opened, alter_insert_eq.
Qed.

Lemma save_service_file_chmod_fault (p : Pathlib.PurePosixPath)
    (text : string) (w : World) (e : exn) :
  fs_fault env (OpMkdir (Pathlib.str (Pathlib.parent p))) = None ->
  fs_fault env (OpOpen (Pathlib.str p)) = None ->
  fs_fault env (OpWrite (Pathlib.str p) text) = None ->
  fs_fault env (OpClose (Pathlib.str p)) = None ->
  fs_fault env (OpChmod (Pathlib.str p) 420) = Some e ->
  is_Exception e = true ->
  save_service_file env p text w
  = (Ok false,
     after w
       ([ELog INFO ("Saving service file to " +:+ Pathlib.str p)]
        ++ map EFs (save_ops p text)
        ++ save_failure_report (Pathlib.str p) e)
       (<[Pathlib.str p
          := mkFile text (opened_mode env (files w) (Pathlib.str p))]>
          (files w))).
Proof.
  intros H1 H2 H3 H4 H5 He. apply run_from_after. unfold_script.
  rewrite H1, H2, H3, H4, H5. cbv iota beta.
  destruct e; try discriminate He; cbv iota beta; to_after;
    unfold id, opened_mode;
    destruct (files w !! Pathlib.str p); now rewrite alter_insert_eq.
Qed.

End Writer.

Lemma save_failure_report_effects (path : string) (e : exn) :
  effects (save_failure_report path e) = [].
Proof. unfold save_failure_report. now destruct (is_PermissionError e). Qed.

(** X1: whatever the file system calls do, a save returns a boolean or
    lets a user interrupt through: no other exception that one of its calls
    raises leaves it. *)
Theorem save_service_file_lets_only_interrupt_through
    (env : Env) (p : Pathlib.PurePosixPath) (text : string) (w : World) :
  (exists b, fst (save_service_file env p text w) = Ok b)
  \/ fst (save_service_file env p text w) = Raise KeyboardInterrupt.
Proof.
  destruct (save_service_file_cases env p text w)
    as (r & es & fs & -> & Hr & _).
  exact Hr.
Qed.

(** X2: whatever the file system does, the calls a save makes are the
    first few of: create the parent directory, open, write, close, set the
    mode, in that order and on the path it was given; it starts no child
    process and prints nothing. *)
Theorem save_service_file_stays_on_its_path
    (env : Env) (p : Pathlib.PurePosixPath) (text : string) (w : World) :
  (exists k,
     effects (trace (snd (save_service_file env p text w)))
     = effects (trace w) ++ map EFs (firstn k (save_ops p text)))
  /\ spawns (trace (snd (save_service_file env p text w))) = spawns (trace w).
Proof.
  destruct (save_service_file_cases env p text w)
    as (r & es & fs & -> & _ & [k Hk]).
  cbn [snd].
  assert (Heff : effects (trace (after w es fs))
                 = effects (trace w) ++ map EFs (firstn k (save_ops p text)))
    by now rewrite after_effects, Hk.
  split; [now exists k |].
  rewrite <- spawns_effects, Heff, spawns_app, spawns_effects, spawns_fs.
  apply app_nil_r.
Qed.

(** X3: when opening the file raises an [Exception], the save returns
    failure, the write, close and chmod are not attempted and the files are
    as they were; a [PermissionError] is reported as a denied permission
    with the advice to use sudo, any other exception with its message. *)
Theorem save_open_failure_changes_nothing
    (env : Env) (p : Pathlib.PurePosixPath) (text : string) (w : World)
    (e : exn) :
  fs_fault env (OpMkdir (Pathlib.str (Pathlib.parent p))) = None ->
  fs_fault env (OpOpen (Pathlib.str p)) = Some e ->
  is_Exception e = true ->
  fst (save_service_file env p text w) = Ok false
  /\ files (snd (save_service_file env p text w)) = files w
  /\ effects (trace (snd (save_service_file env p text w)))
     = effects (trace w)
       ++ [EFs (OpMkdir (Pathlib.str (Pathlib.parent p)));
           EFs (OpOpen (Pathlib.str p))]
  /\ trace (snd (save_service_file env p text w))
     = trace w
       ++ visible (root_level w)
            ([ELog INFO ("Saving service file to " +:+ Pathlib.str p);
              EFs (OpMkdir (Pathlib.str (Pathlib.parent p)));
              EFs (OpOpen (Pathlib.str p))]
             ++ if is_PermissionError e
                then [ELog ERROR ("Permission denied when writing to "
                                  +:+ Pathlib.str p);
                      ELog ERROR
                        "Make sure you're running with sudo privileges"]
                else [ELog ERROR ("Error saving service file: "
                                  +:+ exn_str e)]).
Proof.
  intros H1 H2 He.
  rewrite (save_service_file_open_fault env p text w e H1 H2 He).
  cbn [fst snd]. rewrite after_effects, effects_app.
  rewrite save_failure_report_effects.
  repeat split; reflexivity.
Qed.

Lemma save_open_failure_changes_nothing_witness :
  fst (save_service_file env_open_denied (target_path "svc") "text"
         world_with_unit) = Ok false
  /\ files (snd (save_service_file env_open_denied (target_path "svc") "text"
                   world_with_unit))
     = files world_with_unit
  /\ effects (trace (snd (save_service_file env_open_denied
                            (target_path "svc") "text" world_with_unit)))
     = effects (trace world_with_unit)
       ++ [EFs (OpMkdir (Pathlib.str (Pathlib.parent (target_path "svc"))));
           EFs (OpOpen (Pathlib.str (target_path "svc")))]
  /\ trace (snd (save_service_file env_open_denied (target_path "svc") "text"
                   world_with_unit))
     = trace world_with_unit
       ++ visible (root_level world_with_unit)
            ([ELog INFO ("Saving service file to "
                         +:+ Pathlib.str (target_path "svc"));
              EFs (OpMkdir (Pathlib.str (Pathlib.parent (target_path "svc"))));
              EFs (OpOpen (Pathlib.str (target_path "svc")))]
             ++ if is_PermissionError
                     (PermissionError "[Errno 13] Permission denied")
                then [ELog ERROR ("Permission denied when writing to "
                                  +:+ Pathlib.str (target_path "svc"));
                      ELog ERROR
                        "Make sure you're running with sudo privileges"]
                else [ELog ERROR
                        ("Error saving service file: "
                         +:+ exn_str
                               (PermissionError
                                  "[Errno 13] Permission denied"))]).
Proof.
  apply (save_open_failure_changes_nothing env_open_denied
           (target_path "svc") "text" world_with_unit
           (PermissionError "[Errno 13] Permission denied"));
    reflexivity.
Defined.

(** X4: when the write raises an [Exception] after the file was opened,
    the file is still closed and the save returns failure; chmod is not
    attempted.  The file then holds the start of the new text that had
    reached it, which may be nothing or a part, and nothing of what was at
    the path before; its mode is the one the file had (or the default of a
    new file). *)
Theorem save_write_failure_leaves_partial_file
    (env : Env) (p : Pathlib.PurePosixPath) (text : string) (w : World)
    (e : exn) :
  fs_fault env (OpMkdir (Pathlib.str (Pathlib.parent p))) = None ->
  fs_fault env (OpOpen (Pathlib.str p)) = None ->
  fs_fault env (OpWrite (Pathlib.str p) text) = Some e ->
  fs_fault env (OpClose (Pathlib.str p)) = None ->
  is_Exception e = true ->
  fst (save_service_file env p text w) = Ok false
  /\ effects (trace (snd (save_service_file env p text w)))
     = effects (trace w) ++ map EFs (firstn 4 (save_ops p text))
  /\ files (snd (save_service_file env p text w)) !! Pathlib.str p
     = Some (mkFile
               (substring 0 (reached env (OpWrite (Pathlib.str p) text)) text)
               (opened_mode env (files w) (Pathlib.str p))).
Proof.
  intros H1 H2 H3 H4 He.
  rewrite (save_service_file_write_fault env p text w e H1 H2 H3 H4 He).
  cbn [fst snd]. rewrite after_effects, effects_app.
  rewrite save_failure_report_effects, after_files.
  split; [reflexivity | split; [| apply lookup_insert_eq]].
  rewrite app_nil_r. reflexivity.
Qed.

Lemma save_write_failure_leaves_partial_file_witness :
  fst (save_service_file env_write_fails (target_path "svc") "[Unit] text"
         world_with_unit) = Ok false
  /\ effects (trace (snd (save_service_file env_write_fails
                            (target_path "svc") "[Unit] text"
                            world_with_unit)))
     = effects (trace world_with_unit)
       ++ map EFs (firstn 4 (save_ops (target_path "svc") "[Unit] text"))
  /\ files (snd (save_service_file env_write_fails (target_path "svc")
                   "[Unit] text" world_with_unit))
     !! Pathlib.str (target_path "svc")
     = Some (mkFile
               (substring 0
                  (reached env_write_fails
                     (OpWrite (Pathlib.str (target_path "svc"))
                        "[Unit] text"))
                  "[Unit] text")
               (opened_mode env_write_fails (files world_with_unit)
                  (Pathlib.str (target_path "svc")))).
Proof.
  apply (save_write_failure_leaves_partial_file env_write_fails
           (target_path "svc") "[Unit] text" world_with_unit
           (OtherException "[Errno 28] No space left on device"));
    reflexivity.
Defined.

(** X5: when only the chmod raises an [Exception], the save returns
    failure although the text is in the file; the mode is left as the
    opening made it: the one the file had before, or the default of a new
    file (0666 less the umask). *)
Theorem save_chmod_failure_keeps_written_text
    (env : Env) (p : Pathlib.PurePosixPath) (text : string) (w : World)
    (e : exn) :
  fs_fault env (OpMkdir (Pathlib.str (Pathlib.parent p))) = None ->
  fs_fault env (OpOpen (Pathlib.str p)) = None ->
  fs_fault env (OpWrite (Pathlib.str p) text) = None ->
  fs_fault env (OpClose (Pathlib.str p)) = None ->
  fs_fault env (OpChmod (Pathlib.str p) 420) = Some e ->
  is_Exception e = true ->
  fst (save_service_file env p text w) = Ok false
  /\ effects (trace (snd (save_service_file env p text w)))
     = effects (trace w) ++ map EFs (save_ops p text)
  /\ files (snd (save_service_file env p text w)) !! Pathlib.str p
     = Some (mkFile text (opened_mode env (files w) (Pathlib.str p))).
Proof.
  intros H1 H2 H3 H4 H5 He.
  rewrite (save_service_file_chmod_fault env p text w e H1 H2 H3 H4 H5 He).
  cbn [fst snd]. rewrite after_effects, !effects_app.
  rewrite save_failure_report_effects, after_files.
  split; [reflexivity | split; [| apply lookup_insert_eq]].
  rewrite app_nil_r. reflexivity.
Qed.

Lemma save_chmod_failure_keeps_written_text_witness :
  fst (save_service_file env_chmod_fails (target_path "svc") "text"
         world_with_unit) = Ok false
  /\ effects (trace (snd (save_service_file env_chmod_fails
                            (target_path "svc") "text" world_with_unit)))
     = effects (trace world_with_unit)
       ++ map EFs (save_ops (target_path "svc") "text")
  /\ files (snd (save_service_file env_chmod_fails (target_path "svc") "text"
                   world_with_unit))
     !! Pathlib.str (target_path "svc")
     = Some (mkFile "text"
               (opened_mode env_chmod_fails (files world_with_unit)
                  (Pathlib.str (target_path "svc")))).
Proof.
  apply (save_chmod_failure_keeps_written_text env_chmod_fails
           (target_path "svc") "text" world_with_unit
           (PermissionError "[Errno 1] Operation not permitted"));
    reflexivity.
Defined.



(** ** The flows under faults *)

Section FlowCases.

Variable env : Env.

Lemma map_ESpawn_effects (l : list (list string)) :
  effects (map ESpawn l) = map ESpawn l.
Proof. induction l; [reflexivity | simpl; now rewrite IHl]. Qed.

Lemma effects_cons_log (l : Level) (m : string) (t : list event) :
  effects (ELog l m :: t) = effects t.
Proof. reflexivity. Qed.

(** Every way an install can go: the file system calls of the save, then
    at most the reload and the enable, and those only after a save that
    succeeded. *)
Lemma install_service_cases (n text : string) (w : World) :
  exists r es fs,
    install_service env n text w = (r, after w es fs)
    /\ (exists k sp,
          effects es
          = map EFs (firstn k (save_ops (target_path n) text))
            ++ map ESpawn sp
          /\ (sp = []
              \/ ((geteuid env =? 0) = true
                  /\ forallb (no_fault env)
                       (save_ops (target_path n) text) = true
                  /\ k = 5%nat
                  /\ (sp = [reload_argv]
                      \/ sp = [reload_argv; enable_argv n])))
          /\ (k <> 0%nat -> (geteuid env =? 0) = true)).
Proof.
  destruct (geteuid env =? 0) eqn:Hroot.
  2: { rewrite install_service_user by exact Hroot.
       do 3 eexists; split; [reflexivity |].
       exists 0%nat, []. split; [reflexivity | split; [now left | easy]]. }
  destruct (forallb (no_fault env) (save_ops (target_path n) text)) eqn:Hs.
  - rewrite install_service_root by assumption.
    do 3 eexists; split; [reflexivity |].
    rewrite install_events_effects.
    destruct (runner_result (spawn env reload_argv)) as [[|]|e];
      [ exists 5%nat, [reload_argv; enable_argv n]
      | exists 5%nat, [reload_argv] | exists 5%nat, [reload_argv] ];
      (split; [reflexivity | split; [right | reflexivity]]);
      repeat split; auto.
  - apply after_intro. unfold_flow. to_after.
    rewrite check_root_privileges_run, Hroot. cbv iota beta.
    step get_service_path_run. fold (target_path n).
    match goal with
    | |- context [save_service_file env ?p ?t ?w0] =>
        pose proof (save_service_file_result env p t w0) as Hres;
        destruct (save_service_file_cases env p t w0)
          as (rs & ess & fss & Es & Hr & [k Hk]);
        rewrite Es in *; cbn [fst] in Hres
    end.
    to_after.
    destruct Hr as [[[|] ->] | ->]; cbv iota beta; to_after.
    + rewrite (proj1 Hres eq_refl) in Hs. discriminate Hs.
    + do 3 eexists; split; [reflexivity |].
      exists k, []. rewrite ?effects_cons_log, ?effects_app, Hk.
      simpl. rewrite ?app_nil_r.
      split; [reflexivity | split; [now left | reflexivity]].
    + do 3 eexists; split; [reflexivity |].
      exists k, []. rewrite ?effects_cons_log, ?effects_app, Hk.
      simpl. rewrite ?app_nil_r.
      split; [reflexivity | split; [now left | reflexivity]].
Qed.

(** Every way a save-only run can go: file system calls on the target
    path, no child process. *)
Lemma save_only_service_cases (n text : string) (w : World) :
  exists r es fs,
    save_only_service env n text w = (r, after w es fs)
    /\ (exists k,
          effects es = map EFs (firstn k (save_ops (target_path n) text))
          /\ (k <> 0%nat -> (geteuid env =? 0) = true)).
Proof.
  destruct (geteuid env =? 0) eqn:Hroot.
  2: { rewrite save_only_service_user by exact Hroot.
       do 3 eexists; split; [reflexivity |].
       exists 0%nat. split; [reflexivity | easy]. }
  apply after_intro. unfold_flow. to_after.
  rewrite check_root_privileges_run, Hroot. cbv iota beta.
  step get_service_path_run. fold (target_path n).
  match goal with
  | |- context [save_service_file env ?p ?t ?w0] =>
      destruct (save_service_file_cases env p t w0)
        as (rs & ess & fss & Es & Hr & [k Hk]);
      rewrite Es in *
  end.
  to_after.
  destruct Hr as [[[|] ->] | ->]; cbv iota beta; to_after.
  all: do 3 eexists; split; [reflexivity |].
  all: exists k; rewrite ?effects_cons_log, ?effects_app, Hk; simpl;
    rewrite ?app_nil_r.
  all: split; reflexivity.
Qed.

End FlowCases.

(** ** The script under faults *)

Section ScriptCases.

Variable env : Env.

(** [--verbose] sets the root level and logs one debug record; the rest of
    [main] is the same. *)
Lemma main_verbose (n c : string) (i s : bool) (w : World) :
  main env (mkArgs n c i s true) w
  = main env (mkArgs n c i s false)
      (logged DEBUG "Verbose logging enabled" (with_level DEBUG w)).
Proof. reflexivity. Qed.

Lemma verbose_world (w : World) :
  logged DEBUG "Verbose logging enabled" (with_level DEBUG (startup w))
  = after (started true w) [ELog DEBUG "Verbose logging enabled"] (files w).
Proof. reflexivity. Qed.

Lemma buffered_intro {A} (m : M A) (w : World)
    (P : result A -> list event -> gmap string file -> string -> Prop) :
  (exists r es fs b,
     m (after w [] (files w)) = (r, buffered b (after w es fs))
     /\ P r es fs b) ->
  exists r es fs b, m w = (r, buffered b (after w es fs)) /\ P r es fs b.
Proof. now rewrite after_nothing. Qed.

(** The interpreter exit leaves the world as it finds it; the status is
    the code it was given unless text waits on standard output. *)
Lemma sys_exit_world (code : Z) (w : World) :
  sys_exit env code w = (fst (sys_exit env code w), w).
Proof.
  unfold sys_exit. destruct (stdout_buffer w); [reflexivity |].
  now destruct (exit_flush_fault env _).
Qed.

Lemma sys_exit_nothing_buffered (code : Z) (w : World) :
  stdout_buffer w = "" -> sys_exit env code w = (code, w).
Proof. intros H. unfold sys_exit. now rewrite H. Qed.

Lemma sys_exit_buffered (code : Z) (text : string) (w : World) :
  stdout_buffer w = "" ->
  sys_exit env code (buffered (text +:+ PyStr.chr PyStr.nl) w)
  = (match exit_flush_fault env (text +:+ PyStr.chr PyStr.nl) with
     | Some _ => 120
     | None => code
     end,
     buffered (text +:+ PyStr.chr PyStr.nl) w).
Proof.
  intros H. unfold sys_exit, buffered. cbn [stdout_buffer]. rewrite H.
  change ("" +:+ (text +:+ PyStr.chr PyStr.nl))
    with (text +:+ PyStr.chr PyStr.nl).
  destruct (text +:+ PyStr.chr PyStr.nl) eqn:E.
  - destruct text;
      [rewrite StrFacts.append_nil_l in E | rewrite StrFacts.append_cons in E];
      discriminate E.
  - now destruct (exit_flush_fault env _).
Qed.

(** Every way [main] can go without [--verbose]: the shape of its effects,
    its result and the text it leaves on standard output, and the log
    records it starts with. *)
Lemma main_cases (n c : string) (i s : bool) (w : World) :
  exists r es fs b,
    main env (mkArgs n c i s false) w = (r, buffered b (after w es fs))
    /\ run_shape env (mkArgs n c i s false) es fs (files w)
       /\ (if flow_succeeds env (mkArgs n c i s false)
           then r = Ok 0
                /\ b = (if negb i && negb s
                        then unit_text ("Custom service: " +:+ n) c
                             +:+ PyStr.chr PyStr.nl
                        else "")
           else (r = Ok 1 \/ exists e, r = Raise e) /\ b = "")
       /\ (i && s = false -> exists es', es = preamble n c false ++ es').
Proof.
  apply buffered_intro. unfold run_shape, flow_succeeds.
  cbn [arg_name arg_command arg_install arg_save].
  destruct i, s; unfold_main;
    cbn [arg_name arg_command arg_install arg_save arg_verbose andb negb];
    cbv iota beta; to_after.
  - (* both flags *)
    do 3 eexists; exists ""; split; [now rewrite buffered_nothing |].
    split; [| split; [split; [now left | reflexivity] | discriminate]].
    split; [| reflexivity].
    exists 0%nat, [], [].
    split; [reflexivity | split; [now left | split; [easy | now left]]].
  - (* install *)
    step generate_service_content_run.
    match goal with
    | |- context [install_service env n ?t ?w0] =>
        pose proof (install_service_result env n t w0) as Hres;
        destruct (install_service_cases env n t w0)
          as (r & esi & fsi & E & (k & sp & Hk & Hsp & Hroot));
        rewrite E in *; cbn [fst] in Hres
    end.
    to_after.
    assert (Hflow : if install_succeeds env n
                         (unit_text ("Custom service: " +:+ n) c)
                    then r = Ok true else r <> Ok true).
    { destruct (install_succeeds env n _);
        [now apply Hres | intros H; apply Hres in H; discriminate]. }
    destruct r as [[|]|e]; cbv iota beta.
    all: do 3 eexists; exists ""; split; [now rewrite buffered_nothing |].
    all: split; [split; [| discriminate] |].
    all: try (exists k, sp, [];
      rewrite ?effects_cons_log, ?effects_app, Hk; simpl;
      rewrite ?app_nil_r;
      split; [reflexivity |];
      split;
        [ destruct Hsp as [-> | (Hr & Hs & -> & Hsp)];
          [now left | right; repeat split; auto]
        | split; [intros Hk0; split; [now apply Hroot | reflexivity]
                 | now left] ]).
    all: split; [| intros _; unfold preamble; eexists; cbn [app];
                    rewrite <- ?app_assoc; cbn [app]; reflexivity].
    all: destruct (install_succeeds env n _);
      try congruence; try discriminate Hflow;
      split; eauto.
  - (* save only *)
    step generate_service_content_run.
    match goal with
    | |- context [save_only_service env n ?t ?w0] =>
        pose proof (save_only_service_result env n t w0) as Hres;
        destruct (save_only_service_cases env n t w0)
          as (r & esi & fsi & E & (k & Hk & Hroot));
        rewrite E in *; cbn [fst] in Hres
    end.
    to_after.
    assert (Hflow : if save_succeeds env n
                         (unit_text ("Custom service: " +:+ n) c)
                    then r = Ok true else r <> Ok true).
    { destruct (save_succeeds env n _);
        [now apply Hres | intros H; apply Hres in H; discriminate]. }
    destruct r as [[|]|e]; cbv iota beta.
    all: do 3 eexists; exists ""; split; [now rewrite buffered_nothing |].
    all: split; [split; [| discriminate] |].
    all: try (exists k, [], [];
      rewrite ?effects_cons_log, ?effects_app, Hk; simpl;
      rewrite ?app_nil_r;
      split; [reflexivity |];
      split;
        [ now left
        | split; [intros Hk0; split; [now apply Hroot | reflexivity]
                 | now left] ]).
    all: split; [| intros _; unfold preamble; eexists; cbn [app];
                    rewrite <- ?app_assoc; cbn [app]; reflexivity].
    all: destruct (save_succeeds env n _);
      try congruence; try discriminate Hflow;
      split; eauto.
  - (* preview *)
    step generate_service_content_run. unfold preview_succeeds.
    destruct (stdout_fault env (unit_text ("Custom service: " +:+ n) c));
      cbv iota beta; to_after.
    1: do 3 eexists; exists ""; split; [now rewrite buffered_nothing |].
    2: do 4 eexists; split; [reflexivity |].
    all: split; [split; [| reflexivity] |].
    all: try (exists 0%nat, [],
           [EPrint (unit_text ("Custom service: " +:+ n) c
                    +:+ PyStr.chr PyStr.nl)];
      split; [reflexivity |];
      split; [now left | split; [easy | right; repeat split]]).
    all: split; [| intros _; unfold preamble; eexists; cbn [app];
                    rewrite <- ?app_assoc; cbn [app]; reflexivity].
    all: split; eauto.
Qed.

(** Every way the block under [__main__] can go from a world in which
    nothing waits on standard output. *)
Lemma entry_point_cases (n c : string) (i s : bool) (w : World) :
  stdout_buffer w = "" ->
  exists code es fs b,
    entry_point env (mkArgs n c i s false) w
    = (code, buffered b (after w es fs))
    /\ run_shape env (mkArgs n c i s false) es fs (files w)
       /\ code = exit_status env (mkArgs n c i s false)
       /\ (i && s = false -> exists es', es = preamble n c false ++ es').
Proof.
  intros Hb. unfold entry_point.
  destruct (main_cases n c i s w)
    as (r & es & fs & b & -> & Hs & Hr & Hp).
  assert (Hlog : forall l m,
            run_shape env (mkArgs n c i s false) (es ++ [ELog l m]) fs
              (files w)).
  { intros l m. destruct Hs as ((k & sp & pr & He & H) & Hf).
    split; [| exact Hf]. exists k, sp, pr. split; [| exact H].
    rewrite effects_app, He. simpl. now rewrite app_nil_r. }
  assert (Hp' : forall l m,
            i && s = false ->
            exists es', es ++ [ELog l m] = preamble n c false ++ es').
  { intros l m H. destruct (Hp H) as [es' ->].
    exists (es' ++ [ELog l m]). now rewrite app_assoc. }
  unfold exit_status, stdout_unflushed.
  cbn [arg_name arg_command arg_install arg_save].
  destruct (flow_succeeds env (mkArgs n c i s false)).
  - destruct Hr as [-> ->].
    destruct (negb i && negb s).
    + rewrite sys_exit_buffered by exact Hb.
      do 4 eexists; split; [reflexivity |].
      split; [exact Hs | split; [| exact Hp]].
      cbn [andb]. now destruct (exit_flush_fault env _).
    + rewrite buffered_nothing, sys_exit_nothing_buffered by exact Hb.
      do 3 eexists; exists ""; split; [now rewrite buffered_nothing |].
      split; [exact Hs | split; [reflexivity | exact Hp]].
  - destruct Hr as [[-> | [e ->]] ->]; rewrite buffered_nothing.
    + rewrite sys_exit_nothing_buffered by exact Hb.
      do 3 eexists; exists ""; split; [now rewrite buffered_nothing |].
      split; [exact Hs | split; [reflexivity | exact Hp]].
    + destruct e; unfold log; cbn [snd]; rewrite logged_after;
        rewrite sys_exit_nothing_buffered by exact Hb;
        (do 3 eexists; exists ""; split; [now rewrite buffered_nothing |]);
        (split; [apply Hlog | split; [reflexivity | apply Hp']]).
Qed.

(** Every way the script can go. *)
Lemma script_cases (args : Args) (w : World) :
  exists code es fs b,
    script env args w
    = (code, buffered b (after (started (arg_verbose args) w) es fs))
    /\ run_shape env args es fs (files w)
       /\ code = exit_status env args
       /\ (arg_install args && arg_save args = false ->
           exists es',
             es = preamble (arg_name args) (arg_command args)
                    (arg_verbose args) ++ es').
Proof.
  destruct args as [n c i s v]. unfold script.
  cbn [arg_name arg_command arg_install arg_save arg_verbose].
  destruct v.
  - unfold entry_point. rewrite main_verbose, verbose_world.
    fold (entry_point env (mkArgs n c i s false)
            (after (started true w) [ELog DEBUG "Verbose logging enabled"]
               (files w))).
    destruct (entry_point_cases n c i s
                (after (started true w)
                   [ELog DEBUG "Verbose logging enabled"] (files w))
                eq_refl)
      as (code & es & fs & b & -> & ((k & sp & pr & He & H) & Hf) & Hc & Hp).
    rewrite after_files in Hf. rewrite after_after.
    do 4 eexists; split; [reflexivity |].
    split; [split; [| exact Hf] | split; [exact Hc |]].
    + exists k, sp, pr. split; [| exact H].
      now rewrite effects_app, He.
    + intros Hboth. destruct (Hp Hboth) as [es' ->].
      exists es'. unfold preamble. now rewrite <- !app_assoc.
  - change (startup w) with (started false w).
    destruct (entry_point_cases n c i s (started false w) eq_refl)
      as (code & es & fs & b & -> & Hs & Hc & Hp).
    do 4 eexists; split; [reflexivity |].
    split; [exact Hs | split; [exact Hc | exact Hp]].
Qed.

End ScriptCases.

Lemma spawns_map_ESpawn (l : list (list string)) :
  spawns (map ESpawn l) = map ESpawn l.
Proof. induction l; [reflexivity | simpl; now rewrite IHl]. Qed.

Lemma fs_ops_map_ESpawn (l : list (list string)) :
  fs_ops (map ESpawn l) = [].
Proof. induction l; [reflexivity | exact IHl]. Qed.

(** X7: whatever the environment does and whatever the arguments are, the
    only child processes the script starts are [systemctl daemon-reload]
    and, after it, [systemctl enable] with the name as given; it starts
    them only in install mode, as root, and after a save in which no call
    raised. *)
Theorem script_starts_only_reload_and_enable
    (env : Env) (args : Args) (w : World) :
  exists sp,
    spawns (trace (snd (script env args w)))
    = spawns (trace w) ++ map ESpawn sp
    /\ (sp = []
        \/ (arg_install args = true /\ arg_save args = false
            /\ geteuid env = 0
            /\ forallb (no_fault env)
                 (save_ops (target_path (arg_name args))
                    (unit_text ("Custom service: " +:+ arg_name args)
                       (arg_command args))) = true
            /\ (sp = [reload_argv]
                \/ sp = [reload_argv; enable_argv (arg_name args)]))).
Proof.
  destruct (script_cases env args w)
    as (code & es & fs & b & -> & ((k & sp & pr & He & Hsp & _ & Hpr) & _)
        & _).
  cbn [snd]. rewrite buffered_trace. exists sp. split.
  - rewrite <- spawns_effects, after_effects, He.
    rewrite !spawns_app, spawns_effects, spawns_fs, spawns_map_ESpawn.
    destruct Hpr as [-> | (_ & _ & _ & _ & ->)]; simpl;
      now rewrite app_nil_r.
  - destruct Hsp as [-> | (Hi & Hs & Hr & Hok & _ & Hsp)]; [now left |].
    right. apply Z.eqb_eq in Hr. repeat split; assumption.
Qed.

(** X8: whatever the environment does and whatever the arguments are, the
    file system calls of the script are the first few calls of one save of
    the rendered text at the Target Path; there are none unless the user is
    root and exactly one of [--install] and [--save] is given; in preview
    mode or with both flags the files are left as they were. *)
Theorem script_touches_only_target_path
    (env : Env) (args : Args) (w : World) :
  (exists k,
     fs_ops (trace (snd (script env args w)))
     = fs_ops (trace w)
       ++ map EFs
            (firstn k
               (save_ops (target_path (arg_name args))
                  (unit_text ("Custom service: " +:+ arg_name args)
                     (arg_command args))))
     /\ (k <> 0%nat ->
         geteuid env = 0 /\ xorb (arg_install args) (arg_save args) = true))
  /\ (xorb (arg_install args) (arg_save args) = false ->
      files (snd (script env args w)) = files w).
Proof.
  destruct (script_cases env args w)
    as (code & es & fs & b & -> & ((k & sp & pr & He & _ & Hk & Hpr) & Hx)
        & _).
  cbn [snd]. rewrite buffered_trace, buffered_files, after_files.
  split; [| exact Hx].
  exists k. split.
  - rewrite <- fs_ops_effects, after_effects, He.
    rewrite !fs_ops_app, fs_ops_effects, fs_ops_fs, fs_ops_map_ESpawn.
    destruct Hpr as [-> | (_ & _ & _ & _ & ->)]; simpl;
      now rewrite app_nil_r.
  - intros Hk0. destruct (Hk Hk0) as [Hr Hxor].
    apply Z.eqb_eq in Hr. now split.
Qed.

Section Modes.

Variable env : Env.







End Modes.


Lemma last_words_visible (v : bool) (e : exn) :
  visible (script_level v) [last_words e] = [last_words e].
Proof. destruct e, v; reflexivity. Qed.

Lemma preamble_visible (n c : string) (v : bool) :
  visible (script_level v) (preamble n c v) = preamble n c v.
Proof. now destruct v. Qed.


(** ** The exit status *)







(** An interrupt while [systemctl] runs ends the script with status 1 and
    the cancellation message; the file written before it stays. *)
Example interrupted_install_exits_1 :
  fst (script
         (mkEnv 0 18 (fun _ => None) (fun _ => 0%nat)
            (fun _ => NotRun KeyboardInterrupt)
            (fun _ => None) (fun _ => None))
         (mkArgs "svc" "true" true false false) world0) = 1
  /\ List.last
       (trace (snd (script
          (mkEnv 0 18 (fun _ => None) (fun _ => 0%nat)
            (fun _ => NotRun KeyboardInterrupt)
            (fun _ => None) (fun _ => None))
          (mkArgs "svc" "true" true false false) world0)))
       (EPrint "")
     = ELog INFO "Operation cancelled by user".
Proof. vm_compute. split; reflexivity. Qed.

(** C9 (as amended): for every name and every command, braces included,
    the renderer returns the rendered text and raises nothing: the expansion
    parses the template only, and a lone brace raises when it stands in the
    format string itself.  No run therefore ends on a rendering error:
    unless the two flags conflict, every run logs that the content was
    generated and goes on to the selected flow. *)
Theorem generate_service_content_never_raises :
  (forall (name command : string) (w : World),
     fst (generate_service_content name command w)
     = Ok (unit_text ("Custom service: " +:+ name) command))
  /\ (forall kwargs : gmap string string,
        Format.format (PyStr.chr PyStr.lbrace) kwargs
        = Raise (ValueError "Single '{' encountered in format string"))
  /\ (forall kwargs : gmap string string,
        Format.format (PyStr.chr PyStr.rbrace) kwargs
        = Raise (ValueError "Single '}' encountered in format string"))
  /\ (forall (env : Env) (args : Args) (w : World),
        arg_install args && arg_save args = false ->
        exists es,
          trace (snd (script env args w))
          = trace w
            ++ preamble (arg_name args) (arg_command args)
                 (arg_verbose args)
            ++ es).
Proof.
  split; [| split; [| split]].
  - intros name command w. now rewrite generate_service_content_run.
  - reflexivity.
  - reflexivity.
  - intros env args w Hflags.
    destruct (script_cases env args w)
      as (code & es & fs & b & -> & _ & _ & Hp).
    destruct (Hp Hflags) as [es' ->]. cbn [snd].
    rewrite buffered_trace. unfold after. cbn [trace root_level started].
    rewrite visible_app, preamble_visible. eexists. reflexivity.
Qed.

(** A command that is a lone opening brace is rendered, and the save-only
    run that follows writes the file and exits with status 0. *)
Lemma lone_brace_command_is_rendered :
  fst (generate_service_content "svc" brace_command world0)
  = Ok (unit_text "Custom service: svc" brace_command)
  /\ fst (script env_root (mkArgs "svc" brace_command false true false)
            world0) = 0
  /\ files (snd (script env_root
                   (mkArgs "svc" brace_command false true false) world0))
     !! "/etc/systemd/system/svc.service"
     = Some (mkFile (unit_text "Custom service: svc" brace_command) 420).
Proof. vm_compute. repeat split; reflexivity. Qed.








(** ** Logging does not steer the script *)

Section LogBlind.

Lemma same_outside_log_refl (w : World) : same_outside_log w w.
Proof. now repeat split. Qed.

Lemma logged_stdout_buffer (l : Level) (m : string) (w : World) :
  stdout_buffer (logged l m w) = stdout_buffer w.
Proof. unfold logged. now destruct (isEnabledFor l w). Qed.

Lemma log_blind_ret {A} (a : A) : log_blind (mret a : M A).
Proof. intros w1 w2 H. now split. Qed.

Lemma log_blind_raise {A} (e : exn) : log_blind (raise e : M A).
Proof. intros w1 w2 H. now split. Qed.

Lemma log_blind_lift {A} (r : result A) : log_blind (lift r).
Proof. intros w1 w2 H. now split. Qed.

Lemma log_blind_log (l : Level) (m : string) : log_blind (log l m).
Proof.
  intros w1 w2 (Hf & He & Hb). unfold log. cbn [fst snd].
  split; [reflexivity | split; [| split]].
  - now rewrite !logged_files.
  - now rewrite !logged_effects.
  - now rewrite !logged_stdout_buffer.
Qed.

Lemma log_blind_emit (e : event) : log_blind (emit e).
Proof.
  intros w1 w2 (Hf & He & Hb). unfold emit, record. cbn [fst snd].
  split; [reflexivity | split; [exact Hf | split; [| exact Hb]]].
  cbn [trace]. now rewrite !effects_app, He.
Qed.

Lemma log_blind_setLevel (l : Level) : log_blind (setLevel l).
Proof. intros w1 w2 (Hf & He & Hb). now repeat split. Qed.

Lemma log_blind_update_files (f : gmap string file -> gmap string file) :
  log_blind (update_files f).
Proof.
  intros w1 w2 (Hf & He & Hb). unfold update_files, with_files.
  cbn [fst snd].
  split; [reflexivity | split; [cbn [files]; now rewrite Hf | now split]].
Qed.

Lemma log_blind_buffer_stdout (text : string) :
  log_blind (buffer_stdout text).
Proof.
  intros w1 w2 (Hf & He & Hb). unfold buffer_stdout, buffered.
  cbn [fst snd].
  split; [reflexivity | split; [exact Hf | split; [exact He |]]].
  cbn [stdout_buffer]. now rewrite Hb.
Qed.

Lemma log_blind_bind {A B} (m : M A) (k : A -> M B) :
  log_blind m -> (forall a, log_blind (k a)) -> log_blind (m ≫= k).
Proof.
  intros Hm Hk w1 w2 H. unfold mbind, M_bind.
  destruct (Hm w1 w2 H) as [Hr Hw].
  destruct (m w1) as [r1 w1'], (m w2) as [r2 w2']. cbn [fst snd] in *.
  subst r2. destruct r1 as [a | e]; [now apply Hk | now split].
Qed.

Lemma log_blind_try_except {A} (body : M A) (handler : exn -> option (M A)) :
  log_blind body ->
  (forall e h, handler e = Some h -> log_blind h) ->
  log_blind (try_except body handler).
Proof.
  intros Hb Hh w1 w2 H. unfold try_except.
  destruct (Hb w1 w2 H) as [Hr Hw].
  destruct (body w1) as [r1 w1'], (body w2) as [r2 w2']. cbn [fst snd] in *.
  subst r2. destruct r1 as [a | e]; [now split |].
  destruct (handler e) as [h |] eqn:Eh; [now apply (Hh e h) | now split].
Qed.

Variable env : Env.

Lemma log_blind_fs_call (op : fs_op)
    (effect partial : gmap string file -> gmap string file) :
  log_blind (fs_call env op effect partial).
Proof.
  unfold fs_call. apply log_blind_bind; [apply log_blind_emit | intros _].
  destruct (fs_fault env op); [| apply log_blind_update_files].
  apply log_blind_bind; [apply log_blind_update_files | intros _].
  apply log_blind_raise.
Qed.

Lemma log_blind_closing {A} (path : string) (body : M A) :
  log_blind body -> log_blind (closing env path body).
Proof.
  intros Hb w1 w2 H. unfold closing.
  destruct (Hb w1 w2 H) as [Hr Hw].
  destruct (body w1) as [r1 w1'], (body w2) as [r2 w2']. cbn [fst snd] in *.
  subst r2.
  assert (Hclose : log_blind (close env path))
    by (unfold close; apply log_blind_fs_call).
  destruct (Hclose w1' w2' Hw) as [Hc Hw'].
  destruct (close env path w1') as [c1 w1''], (close env path w2') as [c2 w2''].
  cbn [fst snd] in *. subst c2.
  destruct r1 as [a | e], c1 as [[] | e']; now split.
Qed.

Lemma log_blind_save_service_file (p : Pathlib.PurePosixPath)
    (text : string) :
  log_blind (save_service_file env p text).
Proof.
  unfold save_service_file. apply log_blind_try_except.
  - repeat first
      [ apply log_blind_log | apply log_blind_ret
      | apply log_blind_fs_call
      | apply log_blind_closing
      | apply log_blind_bind; [| intros ?] ].
  - intros e h Hh.
    destruct (is_PermissionError e); [| destruct (is_Exception e)];
      inversion Hh; subst;
      repeat first
        [ apply log_blind_log | apply log_blind_ret
        | apply log_blind_bind; [| intros ?] ].
Qed.

Lemma log_blind_run_systemctl_command (command : list string)
    (service_name : option string) :
  log_blind (run_systemctl_command env command service_name).
Proof.
  unfold run_systemctl_command.
  apply log_blind_bind; [apply log_blind_log | intros _].
  apply log_blind_try_except.
  - apply log_blind_bind.
    + unfold subprocess_run.
      apply log_blind_bind; [apply log_blind_emit | intros _].
      destruct (spawn env _) as [rc out err | rc msg | e];
        [destruct (rc =? 0) | |];
        first [apply log_blind_ret | apply log_blind_raise].
    + intros [out err]. unfold when.
      destruct (PyStr.truthy (PyStr.strip (fst (out, err))));
        repeat first
          [ apply log_blind_log | apply log_blind_ret
          | apply log_blind_bind; [| intros ?] ].
  - intros e h Hh. unfold when in Hh.
    destruct e; cbn [is_Exception] in Hh; inversion Hh; subst;
      try destruct (PyStr.truthy stdout); try destruct (PyStr.truthy stderr);
      repeat first
        [ apply log_blind_log | apply log_blind_ret
        | apply log_blind_bind; [| intros ?] ].
Qed.

Ltac blind_flow :=
  repeat first
    [ apply log_blind_log | apply log_blind_ret | apply log_blind_raise
    | apply log_blind_lift | apply log_blind_emit | apply log_blind_setLevel
    | apply log_blind_buffer_stdout
    | apply log_blind_save_service_file
    | apply log_blind_run_systemctl_command
    | apply log_blind_bind; [| intros ?]
    | match goal with
      | |- log_blind (if ?b then _ else _) => destruct b
      | |- log_blind (match ?x with _ => _ end) => destruct x
      end ].

Lemma log_blind_install_service (n text : string) :
  log_blind (install_service env n text).
Proof.
  unfold install_service, check_root_privileges, get_service_path.
  blind_flow.
Qed.

Lemma log_blind_save_only_service (n text : string) :
  log_blind (save_only_service env n text).
Proof.
  unfold save_only_service, check_root_privileges, get_service_path.
  blind_flow.
Qed.

Lemma log_blind_main (args : Args) : log_blind (main env args).
Proof.
  unfold main, when, print, generate_service_content.
  apply log_blind_bind; [blind_flow | intros _].
  destruct (arg_install args && arg_save args); [blind_flow |].
  apply log_blind_bind; [blind_flow | intros _].
  apply log_blind_bind; [blind_flow | intros _].
  apply log_blind_bind.
  - apply log_blind_try_except; [blind_flow |].
    intros e h Hh. destruct (is_Exception e); inversion Hh; subst.
    blind_flow.
  - intros [content |]; [| blind_flow].
    destruct (arg_install args);
      [apply log_blind_bind;
         [apply log_blind_install_service | intros ?; blind_flow] |].
    destruct (arg_save args);
      [apply log_blind_bind;
         [apply log_blind_save_only_service | intros ?; blind_flow] |].
    blind_flow.
Qed.

(** The exit status depends on the text left on standard output only. *)
Lemma sys_exit_log_blind (code : Z) (w1 w2 : World) :
  same_outside_log w1 w2 ->
  fst (sys_exit env code w1) = fst (sys_exit env code w2)
  /\ same_outside_log (snd (sys_exit env code w1))
       (snd (sys_exit env code w2)).
Proof.
  intros H. rewrite (sys_exit_world env code w1), (sys_exit_world env code w2).
  cbn [fst snd]. split; [| exact H].
  destruct H as (_ & _ & Hb). unfold sys_exit. rewrite Hb.
  destruct (stdout_buffer w2); [reflexivity |].
  now destruct (exit_flush_fault env _).
Qed.

Lemma entry_point_log_blind (args : Args) (w1 w2 : World) :
  same_outside_log w1 w2 ->
  fst (entry_point env args w1) = fst (entry_point env args w2)
  /\ same_outside_log (snd (entry_point env args w1))
       (snd (entry_point env args w2)).
Proof.
  intros H. unfold entry_point.
  destruct (log_blind_main args w1 w2 H) as [Hr Hw].
  destruct (main env args w1) as [r1 w1'], (main env args w2) as [r2 w2'].
  cbn [fst snd] in Hr, Hw. subst r2.
  destruct r1 as [code | []]; apply sys_exit_log_blind;
    first [ exact Hw | now apply log_blind_log ].
Qed.

End LogBlind.

(** X13: logging never steers the script.  With and without [--verbose]
    the exit status, the files and the effects (file system calls, child
    processes, printed text) of a run are the same; and so they are for two
    runs started with the same files and effects, whatever the root level
    and the log records before them. *)
Theorem verbose_changes_only_the_log (env : Env) (n c : string) (i s : bool) :
  (forall w,
     fst (script env (mkArgs n c i s true) w)
     = fst (script env (mkArgs n c i s false) w)
     /\ files (snd (script env (mkArgs n c i s true) w))
        = files (snd (script env (mkArgs n c i s false) w))
     /\ effects (trace (snd (script env (mkArgs n c i s true) w)))
        = effects (trace (snd (script env (mkArgs n c i s false) w))))
  /\ (forall v w1 w2,
        files w1 = files w2 ->
        effects (trace w1) = effects (trace w2) ->
        fst (script env (mkArgs n c i s v) w1)
        = fst (script env (mkArgs n c i s v) w2)
        /\ files (snd (script env (mkArgs n c i s v) w1))
           = files (snd (script env (mkArgs n c i s v) w2))
        /\ effects (trace (snd (script env (mkArgs n c i s v) w1)))
           = effects (trace (snd (script env (mkArgs n c i s v) w2)))).
Proof.
  split.
  - intros w. unfold script at 1 2 3. unfold entry_point.
    rewrite main_verbose.
    fold (entry_point env (mkArgs n c i s false)
            (logged DEBUG "Verbose logging enabled"
               (with_level DEBUG (startup w)))).
    assert (H : same_outside_log
                  (logged DEBUG "Verbose logging enabled"
                     (with_level DEBUG (startup w)))
                  (startup w)).
    { split; [now rewrite logged_files | split];
        [now rewrite logged_effects | now rewrite logged_stdout_buffer]. }
    destruct (entry_point_log_blind env (mkArgs n c i s false) _ _ H)
      as (Hr & Hf & He & _).
    split; [exact Hr | split; [exact Hf | exact He]].
  - intros v w1 w2 Hf He. unfold script.
    assert (H : same_outside_log (startup w1) (startup w2))
      by now repeat split.
    destruct (entry_point_log_blind env (mkArgs n c i s v) _ _ H)
      as (Hr & Hf' & He' & _).
    split; [exact Hr | split; [exact Hf' | exact He']].
Qed.

(** ** More on the resolver and the renderer *)

Section MoreResolver.
Import PyStr StrFacts.

Lemma normalized_name_not_dotdot (n : string) :
  String.eqb (normalized_name n) ".." = false.
Proof.
  pose proof (endswith_length _ _ (normalized_name_endswith n)) as Hlen.
  destruct (normalized_name n) as [|a [|b [|x r]]]; simpl in Hlen; try lia.
  cbn [String.eqb]. destruct (Ascii.eqb a "."), (Ascii.eqb b "."); reflexivity.
Qed.

Lemma normalized_name_absolute (n : string) :
  startswith n "/" = true -> startswith (normalized_name n) "/" = true.
Proof.
  unfold normalized_name. destruct (endswith n ".service"); simpl negb;
    cbv iota; [easy |].
  destruct n as [|a r]; [discriminate |].
  rewrite append_cons. intros H.
  change (startswith (String a r) "/")
    with (Ascii.eqb "/" a && startswith r "") in H.
  apply andb_true_iff in H as [H _].
  change (startswith (String a (r +:+ ".service")) "/")
    with (Ascii.eqb "/" a && startswith (r +:+ ".service") "").
  rewrite H. now destruct (r +:+ ".service").
Qed.

(** Cancelling a common suffix. *)
Lemma append_inj_r (a b s : string) : a +:+ s = b +:+ s -> a = b.
Proof.
  intros H.
  assert (Hlen : String.length a = String.length b).
  { apply (f_equal String.length) in H. rewrite !length_append in H. lia. }
  revert b H Hlen. induction a as [|x a IH]; intros [|y b] H Hlen;
    try discriminate Hlen; [reflexivity |].
  rewrite !append_cons in H. injection H as -> H.
  f_equal. apply IH; [exact H | now injection Hlen].
Qed.


(** The white space [strip] removes is that of [str.strip]: here a space,
    a no-break space (U+00A0) and a line separator (U+2028) before the
    word, an em space (U+2003), an ideographic space (U+3000) and a line
    feed after it.  A no-break space inside the text stays. *)
Example strip_unicode_space :
  strip (" " +:+ String "194" (String "160" "")
         +:+ String "226" (String "128" (String "168" ""))
         +:+ "active" +:+ String "194" (String "160" "") +:+ "(running)"
         +:+ String "226" (String "128" (String "131" ""))
         +:+ String "227" (String "128" (String "128" ""))
         +:+ chr nl)
  = "active" +:+ String "194" (String "160" "") +:+ "(running)".
Proof. reflexivity. Qed.

End MoreResolver.

Lemma normparts_push (stack rest : list string) (p : string) :
  String.eqb p ".." = false ->
  Pathlib.normparts stack (p :: rest) = Pathlib.normparts (p :: stack) rest.
Proof. intros H. simpl. now rewrite H. Qed.

(** X14: a service name without a path separator cannot leave the base
    directory: it resolves to [/etc/systemd/system/<name with the suffix>],
    the parent of that path is the base directory, which is the directory
    the save creates if missing, and the path lies inside the base
    directory. *)
Theorem plain_name_resolves_inside_base_dir (n : string) (w : World) :
  PyStr.contains PyStr.slash n = false ->
  exists p,
    fst (get_service_path n w) = Ok p
    /\ Pathlib.str p = "/etc/systemd/system/" +:+ normalized_name n
    /\ Pathlib.parent p = base_dir
    /\ Pathlib.str (Pathlib.parent p) = "/etc/systemd/system"
    /\ Pathlib.lies_inside base_dir p = true.
Proof.
  intros Hn. rewrite get_service_path_run. cbn [fst].
  eexists; split; [reflexivity |].
  rewrite (target_path_plain n Hn).
  split; [reflexivity | split; [reflexivity | split; [reflexivity |]]].
  unfold Pathlib.lies_inside. cbn [Pathlib.root Pathlib.tail].
  change (Pathlib.tail base_dir) with ["etc"; "systemd"; "system"].
  rewrite !normparts_push
    by first [reflexivity | apply normalized_name_not_dotdot].
  reflexivity.
Qed.

Lemma plain_name_resolves_inside_base_dir_witness :
  exists p,
    fst (get_service_path "backup-service" world0) = Ok p
    /\ Pathlib.str p
       = "/etc/systemd/system/" +:+ normalized_name "backup-service"
    /\ Pathlib.parent p = base_dir
    /\ Pathlib.str (Pathlib.parent p) = "/etc/systemd/system"
    /\ Pathlib.lies_inside base_dir p = true.
Proof.
  apply (plain_name_resolves_inside_base_dir "backup-service" world0).
  reflexivity.
Defined.

(** X15: a service name that starts with a slash is resolved without the
    base directory: the path is the name itself, with the suffix forced,
    parsed as an absolute path. *)
Theorem absolute_name_drops_base_dir (n : string) (w : World) :
  PyStr.startswith n "/" = true ->
  fst (get_service_path n w) = Ok (Pathlib.parse_path (normalized_name n)).
Proof.
  intros Hn. rewrite get_service_path_run. cbn [fst]. f_equal.
  unfold target_path, Pathlib.truediv, Pathlib.posix_join.
  now rewrite (normalized_name_absolute n Hn).
Qed.

Lemma absolute_name_drops_base_dir_witness :
  fst (get_service_path "/tmp/evil" world0)
  = Ok (Pathlib.parse_path (normalized_name "/tmp/evil")).
Proof.
  apply (absolute_name_drops_base_dir "/tmp/evil" world0). reflexivity.
Defined.

Lemma Ok_inj {A} (a b : A) : Ok a = Ok b -> a = b.
Proof. now intros [= ->]. Qed.

(** X16: rendering loses nothing.  For one name, different commands give
    different unit files; for one command, different names do; and when
    names and commands hold no line feed, the unit file determines both. *)
Theorem rendering_is_injective :
  (forall n c1 c2 w1 w2,
     fst (generate_service_content n c1 w1)
     = fst (generate_service_content n c2 w2) -> c1 = c2)
  /\ (forall n1 n2 c w1 w2,
        fst (generate_service_content n1 c w1)
        = fst (generate_service_content n2 c w2) -> n1 = n2)
  /\ (forall n1 n2 c1 c2 w1 w2,
        PyStr.contains PyStr.nl n1 = false ->
        PyStr.contains PyStr.nl n2 = false ->
        PyStr.contains PyStr.nl c1 = false ->
        PyStr.contains PyStr.nl c2 = false ->
        fst (generate_service_content n1 c1 w1)
        = fst (generate_service_content n2 c2 w2) ->
        n1 = n2 /\ c1 = c2).
Proof.
  split; [| split].
  - intros n c1 c2 w1 w2 H. rewrite !generate_service_content_run in H.
    cbn [fst] in H. apply Ok_inj in H. rewrite <- !unit_text_pieces in H.
    do 3 apply (inj (String.append _)) in H.
    now apply append_inj_r in H.
  - intros n1 n2 c w1 w2 H. rewrite !generate_service_content_run in H.
    cbn [fst] in H. apply Ok_inj in H. rewrite <- !unit_text_pieces in H.
    apply (inj (String.append _)) in H.
    apply append_inj_r in H. now apply (inj (String.append _)) in H.
  - intros n1 n2 c1 c2 w1 w2 Hn1 Hn2 Hc1 Hc2 H.
    rewrite !generate_service_content_run in H.
    cbn [fst] in H. apply Ok_inj in H.
    apply (f_equal PyStr.lines) in H.
    rewrite !unit_lines_of_text in H
      by (rewrite ?StrFacts.contains_append, ?Hn1, ?Hn2; auto).
    unfold unit_lines in H. injection H as Hd He.
    split.
    + exact Hd.
    + rewrite !StrFacts.append_nil_l in He. now apply append_inj_r in He.
Qed.


